(** * TradeBot: the pre-trade validation pipeline of [BasicBot.place_order]

    A shallow embedding of [src/bot.py].  [place_order] is one Python
    method; its body is a sequence of blocks (input normalisation, side and
    type validation, balance check, limit-price check, construction of the
    order parameters, submission) and each block is a definition below, in
    the order of the source, glued by an error monad that also records the
    calls made on the exchange client.

    Modelling choices.
    - Python [float] is IEEE 754 binary64; it is the kernel's primitive
      [float] here, so every product, quotient and comparison rounds exactly
      as in the source.  Float division raises [ZeroDivisionError] on a zero
      divisor in Python and is written [fdiv].
    - Python [str] is [string]; [upper] is [str.upper] on ASCII text.
    - The dictionary [order_params] is a [gmap string value].
    - The exchange client ([self.client]) is a record of answers, one per
      endpoint; an answer is a value or the exception the call raises.
    - Error messages are f-strings that print floats; an exception carries
      the values its message prints instead of the rendered text.
    - Logging is not modelled. *)

From Stdlib Require Import PrimFloat FloatOps SpecFloat.
From Stdlib Require Import ZArith Ascii String List DecimalString.
From stdpp Require Import gmap strings list fin_maps.

Set Warnings "-inexact-float".

Local Open Scope string_scope.
Local Open Scope Z_scope.

(** ** Python strings *)

Module PyStr.

(** [str.upper] on one ASCII character: [a]..[z] move down by 32. *)
Definition upper_ascii (c : ascii) : ascii :=
  let n := N_of_ascii c in
  if ((97 <=? n) && (n <=? 122))%N then ascii_of_N (n - 32) else c.

Fixpoint upper (s : string) : string :=
  match s with
  | EmptyString => EmptyString
  | String c r => String (upper_ascii c) (upper r)
  end.

Definition len (s : string) : Z := Z.of_nat (String.length s).

(** A slice bound as Python resolves it: a negative bound counts from the
    end, and the result is clamped to [0, len]. *)
Definition bound (n : Z) (i : Z) : Z :=
  let j := if i <? 0 then i + n else i in
  Z.max 0 (Z.min n j).

(** [s[start:stop]] *)
Definition slice (s : string) (start stop : Z) : string :=
  let n := len s in
  let a := bound n start in
  let b := bound n stop in
  String.substring (Z.to_nat a) (Z.to_nat (b - a)) s.

(** [s[start:]] *)
Definition slice_from (s : string) (start : Z) : string :=
  let n := len s in
  let a := bound n start in
  String.substring (Z.to_nat a) (Z.to_nat (n - a)) s.

(** [s[:stop]] *)
Definition slice_to (s : string) (stop : Z) : string :=
  let n := len s in
  String.substring 0 (Z.to_nat (bound n stop)) s.

(** [s.endswith(suffix)] *)
Definition endswith (s suffix : string) : bool :=
  let n := String.length s in
  let m := String.length suffix in
  if (n <? m)%nat then false
  else String.eqb (String.substring (n - m) m s) suffix.

End PyStr.

(** ** Symbol resolver: lines 154, 155 and 182 of [place_order] *)

(** [symbol[len(symbol)-4:] if symbol.endswith('USDT') else 'USDT'] *)
Definition quote_asset (symbol : string) : string :=
  if PyStr.endswith symbol "USDT"
  then PyStr.slice_from symbol (PyStr.len symbol - 4)
  else "USDT".

(** [symbol[:len(symbol)-4] if symbol.endswith('USDT') else symbol[:len(symbol)-3]] *)
Definition base_asset (symbol : string) : string :=
  if PyStr.endswith symbol "USDT"
  then PyStr.slice_to symbol (PyStr.len symbol - 4)
  else PyStr.slice_to symbol (PyStr.len symbol - 3).

(** ** Values, exceptions and the exchange client *)

(** What a Python dictionary of this program holds. *)
Inductive value :=
| VStr (s : string)
| VFloat (x : float)
| VInt (n : Z).

(** One entry of [account_info['balances']]; [free] and [locked] are the
    entry's strings read by [float(...)]. *)
Record Balance := { asset : string; free : float; locked : float }.

(** What a call on [self.client] may raise. *)
Inductive client_error :=
| BinanceAPIException (message : string) (code : Z)
| BinanceOrderException (message : string) (code : Z)
| OtherException (message : string).

(** The exceptions raised inside the [try] block of [place_order].
    - [InsufficientBalance held asset required max_quantity base] is the
      [Exception] of line 179, with [quote_balance], [quote_asset],
      [required_amount], [max_possible] and [base_asset], and the one of
      line 196, whose message prints [base_balance], [base_asset],
      [quantity], [base_balance] and [base_asset].
    - [PriceTooFar price current min_price max_price] is the [Exception] of
      line 208. *)
Inductive exn :=
| ValueError (msg : string)
| TypeError
| ZeroDivisionError
| KeyError (key : string)
| InsufficientBalance (held : float) (held_asset : string)
    (required : float) (max_quantity : float) (base : string)
| PriceTooFar (price current min_price max_price : float)
| ClientError (e : client_error).

Inductive result (E A : Type) :=
| Ok (a : A)
| Err (e : E).
Arguments Ok {E A} a.
Arguments Err {E A} e.

(** The endpoints of [self.client] that [place_order] reaches. *)
Record Client := {
  get_account : result client_error (list Balance);
  get_symbol_ticker : string -> result client_error float;
  create_order : gmap string value -> result client_error (gmap string value);
  get_order : string -> value -> result client_error (gmap string value)
}.

(** A request sent to the exchange. *)
Inductive call :=
| GetAccount
| GetSymbolTicker (symbol : string)
| CreateOrder (order_params : gmap string value)
| GetOrder (symbol : string) (order_id : value).

(** ** The monad: the calls made so far, and a value or an exception *)

Definition M (A : Type) : Type := list call * result exn A.

Definition ret {A} (a : A) : M A := ([], Ok a).

Definition raise {A} (e : exn) : M A := ([], Err e).

Definition bind {A B} (m : M A) (f : A -> M B) : M B :=
  match m with
  | (t, Ok a) => let '(t', r) := f a in ((t ++ t')%list, r)
  | (t, Err e) => (t, Err e)
  end.

Notation "'do' x <- m 'in' k" := (bind m (fun x => k))
  (at level 10, x name, m at level 100, k at level 200).
Notation "'do' ' p <- m 'in' k" := (bind m (fun x => let 'p := x in k))
  (at level 10, p pattern, m at level 100, k at level 200).
Notation "'exec' m 'in' k" := (bind m (fun _ => k))
  (at level 10, m at level 100, k at level 200).

(** One request: it is recorded, and its answer is returned or raised. *)
Definition request {A} (c : call) (answer : result client_error A) : M A :=
  ([c], match answer with Ok a => Ok a | Err e => Err (ClientError e) end).

Definition trace {A} (m : M A) : list call := fst m.
Definition outcome {A} (m : M A) : result exn A := snd m.

Definition is_create_order (c : call) : bool :=
  match c with CreateOrder _ => true | _ => false end.

Definition is_get_symbol_ticker (c : call) : bool :=
  match c with GetSymbolTicker _ => true | _ => false end.

(** ** Float operations that can raise *)

(** [x / y] on floats. *)
Definition fdiv (x y : float) : M float :=
  if PrimFloat.is_zero y then raise ZeroDivisionError else ret (x / y)%float.

(** An operand of [*] that may be [None]. *)
Definition operand (price : option float) : M float :=
  match price with
  | Some p => ret p
  | None => raise TypeError
  end.

(** [x in l] on strings. *)
Definition str_in (x : string) (l : list string) : bool :=
  existsb (String.eqb x) l.

(** ** The format [:.6f] of line 178

    The float's exact binary value is scaled by [10^6] and rounded to the
    nearest integer, ties to even; the digits are printed with six places
    after the point. *)

Definition round_half_even (n d : Z) : Z :=
  let q := n / d in
  let r := n mod d in
  if 2 * r <? d then q
  else if d <? 2 * r then q + 1
  else if Z.even q then q else q + 1.

Definition digits (n : Z) : string :=
  NilZero.string_of_uint (N.to_uint (Z.to_N n)).

(** The six digits after the point. *)
Definition fraction6 (n : Z) : string :=
  match digits (1000000 + n) with
  | String _ rest => rest
  | EmptyString => EmptyString
  end.

Definition format_6f (x : float) : string :=
  match Prim2SF x with
  | S754_nan => "nan"
  | S754_infinity s => if s then "-inf" else "inf"
  | S754_zero s => String.append (if s then "-" else "") "0.000000"
  | S754_finite s m e =>
      let n := Z.pos m * 1000000 in
      let u := if 0 <=? e then n * 2 ^ e else round_half_even n (2 ^ (- e)) in
      String.append (if s then "-" else "")
        (String.append (digits (u / 1000000))
           (String.append "." (fraction6 (u mod 1000000))))
  end.

(** ** [BasicBot.get_current_price] and [BasicBot.get_order_details]

    Both wrap one request in a [try] whose handler logs and re-raises. *)

Definition get_current_price (c : Client) (symbol : string) : M float :=
  let s := PyStr.upper symbol in
  request (GetSymbolTicker s) (get_symbol_ticker c s).

Definition get_order_details (c : Client) (symbol : string) (order_id : value)
  : M (gmap string value) :=
  let s := PyStr.upper symbol in
  request (GetOrder s order_id) (get_order c s order_id).

(** ** The blocks of [BasicBot.place_order] *)

Definition valid_order_types : list string :=
  ["MARKET"; "LIMIT"; "STOP"; "STOP_MARKET"; "TAKE_PROFIT"; "TAKE_PROFIT_MARKET"].

Definition valid_order_types_repr : string :=
  "['MARKET', 'LIMIT', 'STOP', 'STOP_MARKET', 'TAKE_PROFIT', 'TAKE_PROFIT_MARKET']".

(** Lines 142-144. *)
Definition validate_side (side : string) : M unit :=
  if str_in side ["BUY"; "SELL"] then ret tt
  else raise (ValueError "Side must be 'BUY' or 'SELL'").

(** Lines 146-149. *)
Definition validate_order_type (order_type : string) : M unit :=
  if str_in order_type valid_order_types then ret tt
  else raise (ValueError
                (String.append "Order type must be one of: " valid_order_types_repr)).

(** The loop of lines 161-164 and 188-191: the [free] amount of the first
    entry for the asset, [0] when there is none. *)
Fixpoint free_balance (a : string) (balances : list Balance) : float :=
  match balances with
  | [] => 0%float
  | b :: rest =>
      if String.eqb (asset b) a then free b else free_balance a rest
  end.

(** Lines 151-196. *)
Definition check_balance (c : Client) (symbol side order_type : string)
    (quantity : float) (price : option float) : M unit :=
  if String.eqb side "BUY" then
    let quote := quote_asset symbol in
    let base := base_asset symbol in
    do balances <- request GetAccount (get_account c) in
    let quote_balance := free_balance quote balances in
    do '(required_amount, reference) <-
      (if String.eqb order_type "MARKET" then
         do current_price <- get_current_price c symbol in
         ret ((quantity * current_price * 1.01)%float, current_price)
       else
         do p <- operand price in
         ret ((quantity * p)%float, p)) in
    if (quote_balance <? required_amount)%float then
      do max_possible <- fdiv quote_balance reference in
      raise (InsufficientBalance quote_balance quote required_amount
               max_possible base)
    else ret tt
  else
    let base := base_asset symbol in
    do balances <- request GetAccount (get_account c) in
    let base_balance := free_balance base balances in
    if (base_balance <? quantity)%float then
      raise (InsufficientBalance base_balance base quantity base_balance base)
    else ret tt.

(** Lines 198-208. *)
Definition check_limit_price (c : Client) (symbol order_type : string)
    (price : option float) : M unit :=
  if String.eqb order_type "LIMIT" then
    match price with
    | Some p =>
        do current_price <- get_current_price c symbol in
        do ratio <- fdiv (abs (p - current_price))%float current_price in
        let price_deviation := (ratio * 100)%float in
        if (20 <? price_deviation)%float then
          let min_price := (current_price * 0.8)%float in
          let max_price := (current_price * 1.2)%float in
          raise (PriceTooFar p current_price min_price max_price)
        else ret tt
    | None => ret tt
    end
  else ret tt.

(** The dictionary literal of lines 211-216. *)
Definition base_params (symbol side order_type : string) (quantity : float)
  : gmap string value :=
  <["quantity" := VFloat quantity]>
    (<["type" := VStr order_type]>
       (<["side" := VStr side]>
          (<["symbol" := VStr symbol]> ∅))).

(** Lines 210-229. *)
Definition build_order_params (symbol side order_type : string)
    (quantity : float) (price stop_price : option float)
    (time_in_force : string) : M (gmap string value) :=
  let order_params := base_params symbol side order_type quantity in
  do order_params <-
    (if String.eqb order_type "LIMIT" then
       match price with
       | None => raise (ValueError "Price is required for LIMIT orders")
       | Some p =>
           ret (<["timeInForce" := VStr time_in_force]>
                  (<["price" := VFloat p]> order_params))
       end
     else ret order_params) in
  if str_in order_type ["STOP"; "STOP_MARKET"; "TAKE_PROFIT"; "TAKE_PROFIT_MARKET"]
  then
    match stop_price with
    | None =>
        raise (ValueError
                 (String.append "Stop price is required for "
                    (String.append order_type " orders")))
    | Some sp => ret (<["stopPrice" := VFloat sp]> order_params)
    end
  else ret order_params.

(** [d[key]] *)
Definition item (d : gmap string value) (key : string) : M value :=
  match d !! key with
  | Some v => ret v
  | None => raise (KeyError key)
  end.

(** What [place_order] returns. *)
Record OrderInfo := {
  order_response : gmap string value;
  order_details : gmap string value
}.

(** The [try] block, lines 137-248. *)
Definition place_order_body (c : Client) (symbol side order_type : string)
    (quantity : float) (price stop_price : option float)
    (time_in_force : string) : M OrderInfo :=
  let symbol := PyStr.upper symbol in
  let side := PyStr.upper side in
  let order_type := PyStr.upper order_type in
  exec validate_side side in
  exec validate_order_type order_type in
  exec check_balance c symbol side order_type quantity price in
  exec check_limit_price c symbol order_type price in
  do order_params <-
    build_order_params symbol side order_type quantity price stop_price
      time_in_force in
  do response <- request (CreateOrder order_params) (create_order c order_params) in
  do order_id <- item response "orderId" in
  do details <- get_order_details c symbol order_id in
  ret {| order_response := response; order_details := details |}.

(** What the caller of [place_order] catches: the [Exception] built by one
    of the three handlers of lines 250-263. *)
Inductive failure :=
| BinanceApiError (message : string) (code : Z)
| OrderError (message : string) (code : Z)
| FailedToPlaceOrder (e : exn).

Definition handle (e : exn) : failure :=
  match e with
  | ClientError (BinanceAPIException m code) => BinanceApiError m code
  | ClientError (BinanceOrderException m code) => OrderError m code
  | _ => FailedToPlaceOrder e
  end.

Definition place_order (c : Client) (symbol side order_type : string)
    (quantity : float) (price stop_price : option float)
    (time_in_force : string) : list call * result failure OrderInfo :=
  let '(t, r) :=
    place_order_body c symbol side order_type quantity price stop_price
      time_in_force in
  (t, match r with Ok info => Ok info | Err e => Err (handle e) end).

(** ** A sample exchange

    An account that holds [usdt] USDT and [btc] BTC free (and more of both
    locked), a market where every symbol trades at [market_price], and an
    exchange that accepts every order under the identifier 1. *)

Definition sample_response : gmap string value := {[ "orderId" := VInt 1 ]}.

Definition sample_client (usdt btc market_price : float) : Client := {|
  get_account :=
    Ok [ {| asset := "BTC"; free := btc; locked := 5 |};
         {| asset := "USDT"; free := usdt; locked := 1000 |} ];
  get_symbol_ticker := fun _ => Ok market_price;
  create_order := fun _ => Ok sample_response;
  get_order := fun _ _ => Ok sample_response
|}.

(** ** Vocabulary of the specification *)

(** A string without its last [k] characters (the empty string when it has
    fewer). *)
Definition remove_last (k : nat) (s : string) : string :=
  String.substring 0 (String.length s - k) s.

(** The last [k] characters of a string (all of it when it has fewer). *)
Definition last_chars (k : nat) (s : string) : string :=
  String.substring (String.length s - k) k s.

(** ** Vocabulary of the properties *)

(** A computation that sends no order. *)
Definition quiet {A} (m : M A) : Prop :=
  existsb is_create_order (trace m) = false.

(** Everything [place_order] does before it submits: lines 137-234. *)
Definition prepare (c : Client) (symbol side order_type : string)
    (quantity : float) (price stop_price : option float)
    (time_in_force : string) : M (gmap string value) :=
  exec validate_side side in
  exec validate_order_type order_type in
  exec check_balance c symbol side order_type quantity price in
  exec check_limit_price c symbol order_type price in
  build_order_params symbol side order_type quantity price stop_price
    time_in_force.

(** The submission and the report: lines 236-248. *)
Definition submit (c : Client) (symbol : string)
    (order_params : gmap string value) : M OrderInfo :=
  do response <- request (CreateOrder order_params) (create_order c order_params) in
  do order_id <- item response "orderId" in
  do details <- get_order_details c symbol order_id in
  ret {| order_response := response; order_details := details |}.


(** [abs(price - current_price) / current_price * 100] *)
Definition deviation (price current_price : float) : float :=
  (abs (price - current_price) / current_price * 100)%float.

(** The branch taken once the balance and the amount required are known
    (lines 175-179). *)
Definition insufficient_quote (held : float) (quote : string)
    (required reference : float) (base : string) : result exn unit :=
  if (held <? required)%float then
    if PrimFloat.is_zero reference then Err ZeroDivisionError
    else Err (InsufficientBalance held quote required (held / reference)%float base)
  else Ok tt.

(** The balances with other amounts locked. *)
Definition relock (f : Balance -> float) (balances : list Balance) : list Balance :=
  map (fun b => {| asset := asset b; free := free b; locked := f b |}) balances.

(** * The rest of the bot

    The other operations of [BasicBot] in [src/bot.py], its constructor, and
    the single-command mode of [src/main.py] that calls [place_order]. *)

(** ** More sample exchanges *)

(** An exchange that accepts the order and then fails to find it. *)
Definition forgetful_client : Client := {|
  get_account := Ok [ {| asset := "BTC"; free := 1; locked := 0 |} ];
  get_symbol_ticker := fun _ => Ok 50000%float;
  create_order := fun _ => Ok sample_response;
  get_order := fun _ _ => Err (BinanceAPIException "Order does not exist." (-2013))
|}.

(** An exchange whose account endpoint rejects the key. *)
Definition locked_out_client : Client := {|
  get_account := Err (BinanceAPIException "Invalid API-key, IP, or permissions for action." (-2015));
  get_symbol_ticker := fun _ => Ok 50000%float;
  create_order := fun _ => Ok sample_response;
  get_order := fun _ _ => Ok sample_response
|}.

(** ** More of Python's strings *)

(** [str.lower] on one ASCII character. *)
Definition lower_ascii (c : ascii) : ascii :=
  let n := N_of_ascii c in
  if ((65 <=? n) && (n <=? 90))%N then ascii_of_N (n + 32) else c.

Fixpoint lower (s : string) : string :=
  match s with
  | EmptyString => EmptyString
  | String c r => String (lower_ascii c) (lower r)
  end.

(** [sub in s]: [sub] occurs in [s]. *)
Fixpoint str_contains (sub s : string) : bool :=
  String.prefix sub s
  || match s with
     | EmptyString => false
     | String _ rest => str_contains sub rest
     end.

(** The truth value of an optional string: [None] and the empty string are
    false. *)
Definition truthy_str (o : option string) : bool :=
  match o with
  | Some s => negb (String.eqb s "")
  | None => false
  end.

(** The truth value of an optional float: [None] and zero are false. *)
Definition truthy_float (o : option float) : bool :=
  match o with
  | Some x => negb (PrimFloat.is_zero x)
  | None => false
  end.

(** ** [BasicBot.get_position_info], lines 304-331 *)

(** One entry of the list returned.  The source copies the strings [free]
    and [locked] of the balance and prints the total with [str]; the entry
    holds the three amounts. *)
Record Holding := {
  holding_asset : string;
  holding_free : float;
  holding_locked : float;
  holding_total : float
}.

(** The test of line 319. *)
Definition position_matches (symbol : option string) (a : string) : bool :=
  match symbol with
  | None => true
  | Some s =>
      str_contains a (PyStr.upper s)
      || String.eqb (String.append a "USDT") (PyStr.upper s)
  end.

(** The loop of lines 312-325. *)
Fixpoint active_positions (symbol : option string) (balances : list Balance)
  : list Holding :=
  match balances with
  | [] => []
  | b :: rest =>
      let free_amount := free b in
      let locked_amount := locked b in
      let total_amount := (free_amount + locked_amount)%float in
      if (0 <? total_amount)%float then
        if position_matches symbol (asset b) then
          {| holding_asset := asset b; holding_free := free b;
             holding_locked := locked b; holding_total := total_amount |}
          :: active_positions symbol rest
        else active_positions symbol rest
      else active_positions symbol rest
  end.

Definition get_position_info (c : Client) (symbol : option string)
  : M (list Holding) :=
  do balances <- request GetAccount (get_account c) in
  ret (active_positions symbol balances).

(** ** [BasicBot.get_symbol_info], lines 100-111 *)

(** One entry of [exchange_info['symbols']]: its symbol and the rest of it. *)
Record SymbolInfo := {
  info_symbol : string;
  info_rules : gmap string value
}.

(** The loop of lines 104-107. *)
Fixpoint find_symbol (symbols : list SymbolInfo) (upper_symbol : string)
  : option SymbolInfo :=
  match symbols with
  | [] => None
  | symbol_info :: rest =>
      if String.eqb (info_symbol symbol_info) upper_symbol then Some symbol_info
      else find_symbol rest upper_symbol
  end.

(** [exchange_info] is the answer of [self.client.get_exchange_info()]. *)
Definition get_symbol_info (exchange_info : result client_error (list SymbolInfo))
    (symbol : string) : result exn SymbolInfo :=
  match exchange_info with
  | Err e => Err (ClientError e)
  | Ok symbols =>
      match find_symbol symbols (PyStr.upper symbol) with
      | Some symbol_info => Ok symbol_info
      | None =>
          Err (ValueError
                 (String.append "Symbol " (String.append symbol " not found")))
      end
  end.

(** ** [BasicBot.__init__], lines 22-87 *)

(** What the constructor does outside the process. *)
Inductive setup_step :=
| NewClient (api_key api_secret : string) (testnet : bool)
| SetApiUrl (url : string)
| GetServerTime
| TestGetAccount.

(** The answers of the library and of the exchange to those steps. *)
Record Platform := {
  new_client : string -> string -> bool -> result client_error unit;
  server_time : result client_error Z;
  account_access : result client_error unit
}.

(** The fields the constructor sets. *)
Record Bot := {
  bot_api_key : string;
  bot_api_secret : string;
  bot_debug_mode : bool;
  bot_api_url : option string
}.

(** [os.getenv(name, default)] *)
Definition getenv (env : gmap string string) (name default : string) : string :=
  match env !! name with
  | Some v => v
  | None => default
  end.

(** [_initialize_client], lines 51-69. *)
Definition initialize_client (pf : Platform) (api_key api_secret : string)
    (testnet : bool) : list setup_step * result exn (option string) :=
  match new_client pf api_key api_secret true with
  | Err e => ([NewClient api_key api_secret true], Err (ClientError e))
  | Ok _ =>
      if testnet then
        ([NewClient api_key api_secret true;
          SetApiUrl "https://testnet.binance.vision/api"],
         Ok (Some "https://testnet.binance.vision/api"))
      else ([NewClient api_key api_secret true], Ok None)
  end.

(** [_test_connection], lines 71-87. *)
Definition test_connection (pf : Platform) : list setup_step * result exn unit :=
  match server_time pf with
  | Err e => ([GetServerTime], Err (ClientError e))
  | Ok _ =>
      match account_access pf with
      | Err e => ([GetServerTime; TestGetAccount], Err (ClientError e))
      | Ok _ => ([GetServerTime; TestGetAccount], Ok tt)
      end
  end.

(** [__init__(self, api_key=None, api_secret=None, testnet=True)]; [env] is
    the process environment after [load_dotenv()]. *)
Definition init (env : gmap string string) (pf : Platform)
    (api_key api_secret : option string) (testnet : bool)
  : list setup_step * result exn Bot :=
  let key := env !! "BINANCE_API_KEY" in
  let secret := env !! "BINANCE_API_SECRET" in
  let debug_mode := String.eqb (lower (getenv env "DEBUG_MODE" "False")) "true" in
  if negb (truthy_str key) || negb (truthy_str secret) then
    ([], Err (ValueError "API credentials not found. Please check your .env file."))
  else
    let k := getenv env "BINANCE_API_KEY" "" in
    let s := getenv env "BINANCE_API_SECRET" "" in
    match initialize_client pf k s testnet with
    | (t, Err e) => (t, Err e)
    | (t, Ok url) =>
        match test_connection pf with
        | (t', Err e) => ((t ++ t')%list, Err e)
        | (t', Ok _) =>
            ((t ++ t')%list,
             Ok {| bot_api_key := k; bot_api_secret := s;
                   bot_debug_mode := debug_mode; bot_api_url := url |})
        end
    end.

(** An environment with both credentials, and a platform that answers. *)
Definition sample_env : gmap string string :=
  <["BINANCE_API_KEY" := "key"]>
    (<["BINANCE_API_SECRET" := "secret"]> (<["DEBUG_MODE" := "TRUE"]> ∅)).

Definition sample_platform : Platform := {|
  new_client := fun _ _ _ => Ok tt;
  server_time := Ok 1700000000000;
  account_access := Ok tt
|}.

(** ** The single-command mode of [src/main.py], lines 334-394 *)

(** The arguments as [argparse] returns them. *)
Record Args := {
  arg_symbol : option string;
  arg_side : option string;
  arg_type : option string;
  arg_quantity : option float;
  arg_price : option float;
  arg_stop_price : option float;
  arg_interactive : bool
}.

(** [x in l] for an argument that may be [None]. *)
Definition opt_in (x : option string) (l : list string) : bool :=
  match x with
  | Some s => str_in s l
  | None => false
  end.

(** What [main] does with the arguments. *)
Inductive cli_action :=
| RunCliMode
| ExitWithError (message : string)
| RunSingleCommand.

(** Lines 372-394; [argc] is [len(sys.argv)]. *)
Definition main (argc : nat) (args : Args) : cli_action :=
  if Nat.eqb argc 1 || arg_interactive args then RunCliMode
  else if negb (truthy_str (arg_symbol args) && truthy_str (arg_side args)
                && truthy_str (arg_type args) && truthy_float (arg_quantity args))
  then ExitWithError
         "Error: symbol, side, type, and quantity are required for single command mode."
  else if opt_in (arg_type args) ["LIMIT"; "STOP"]
          && negb (truthy_float (arg_price args))
  then ExitWithError "Error: price is required for LIMIT and STOP orders."
  else if opt_in (arg_type args) ["STOP_MARKET"; "STOP"]
          && negb (truthy_float (arg_stop_price args))
  then ExitWithError "Error: stop-price is required for STOP orders."
  else RunSingleCommand.

(** The call of lines 339-346, for arguments that are present (as they are
    when [main] reaches it); the time in force is the default of
    [place_order], [TIME_IN_FORCE_GTC]. *)
Definition run_single_command (c : Client) (args : Args)
  : option (list call * result failure OrderInfo) :=
  match arg_symbol args, arg_side args, arg_type args, arg_quantity args with
  | Some symbol, Some side, Some order_type, Some quantity =>
      Some (place_order c symbol side order_type quantity (arg_price args)
              (arg_stop_price args) "GTC")
  | _, _, _, _ => None
  end.

(** * Properties *)

(** ** The monad *)

Lemma bind_ok {A B} (t : list call) (a : A) (f : A -> M B) :
  bind (t, Ok a) f = ((t ++ trace (f a))%list, outcome (f a)).
Proof. unfold bind, trace, outcome. destruct (f a); reflexivity. Qed.

Lemma bind_err {A B} (t : list call) (e : exn) (f : A -> M B) :
  bind (t, Err e) f = (t, Err e).
Proof. reflexivity. Qed.

Lemma bind_ret {A B} (a : A) (f : A -> M B) : bind (ret a) f = f a.
Proof. unfold ret. rewrite bind_ok. destruct (f a); reflexivity. Qed.

Lemma bind_raise {A B} (e : exn) (f : A -> M B) : bind (raise e) f = raise e.
Proof. reflexivity. Qed.

Lemma bind_assoc {A B C} (m : M A) (f : A -> M B) (g : B -> M C) :
  bind (bind m f) g = bind m (fun a => bind (f a) g).
Proof.
  destruct m as [t [a | e]]; [| reflexivity].
  unfold bind at 2 3. destruct (f a) as [t1 [b | e1]]; simpl.
  - destruct (g b) as [t2 r]. now rewrite app_assoc.
  - reflexivity.
Qed.

Lemma trace_bind {A B} (m : M A) (f : A -> M B) :
  trace (bind m f) =
  match outcome m with
  | Ok a => (trace m ++ trace (f a))%list
  | Err _ => trace m
  end.
Proof.
  destruct m as [t [a | e]]; [| reflexivity].
  rewrite bind_ok. reflexivity.
Qed.

Lemma outcome_bind {A B} (m : M A) (f : A -> M B) :
  outcome (bind m f) =
  match outcome m with
  | Ok a => outcome (f a)
  | Err e => Err e
  end.
Proof.
  destruct m as [t [a | e]]; [| reflexivity].
  rewrite bind_ok. reflexivity.
Qed.

(** ** Upper-casing *)

Lemma upper_ascii_idempotent (c : ascii) :
  PyStr.upper_ascii (PyStr.upper_ascii c) = PyStr.upper_ascii c.
Proof. destruct c as [[] [] [] [] [] [] [] []]; reflexivity. Qed.

Lemma upper_idempotent (s : string) :
  PyStr.upper (PyStr.upper s) = PyStr.upper s.
Proof.
  induction s as [| c s IH]; simpl.
  - reflexivity.
  - now rewrite upper_ascii_idempotent, IH.
Qed.

Example upper_mixed : PyStr.upper "btcUsdt_1" = "BTCUSDT_1".
Proof. reflexivity. Qed.

(** C10: the interface is case-insensitive in symbol, side and order type:
    [place_order] on the upper-cased three arguments gives the same requests
    and the same result as on the arguments themselves, for every client and
    every quantity, price, stop price and time in force. *)
Theorem place_order_case_insensitive (c : Client) (symbol side order_type : string)
    (quantity : float) (price stop_price : option float) (time_in_force : string) :
  place_order c (PyStr.upper symbol) (PyStr.upper side) (PyStr.upper order_type)
    quantity price stop_price time_in_force
  = place_order c symbol side order_type quantity price stop_price time_in_force.
Proof.
  unfold place_order, place_order_body.
  now rewrite !upper_idempotent.
Qed.

Example place_order_lower_case_side :
  forall c q, place_order c "btcusdt" "buy" "market" q None None "GTC"
              = place_order c "BTCUSDT" "BUY" "MARKET" q None None "GTC".
Proof. intros c q. reflexivity. Qed.

(** ** The order request builder *)

Lemma base_params_no_price symbol side order_type quantity :
  base_params symbol side order_type quantity !! "price" = None.
Proof. unfold base_params. now rewrite !lookup_insert_ne, lookup_empty. Qed.

Lemma base_params_no_stop_price symbol side order_type quantity :
  base_params symbol side order_type quantity !! "stopPrice" = None.
Proof. unfold base_params. now rewrite !lookup_insert_ne, lookup_empty. Qed.

Lemma base_params_no_time_in_force symbol side order_type quantity :
  base_params symbol side order_type quantity !! "timeInForce" = None.
Proof. unfold base_params. now rewrite !lookup_insert_ne, lookup_empty. Qed.

(** C4: building the request of a LIMIT order without a price raises the
    [ValueError] "Price is required for LIMIT orders", whatever the other
    arguments; building the request of a MARKET order succeeds for every
    price and stop price, supplied or not, and the request built has the
    four fields symbol, side, type and quantity, so neither a price nor a
    stop price (nor a time in force); the whole of [place_order] on a MARKET
    order does not depend on the price and stop price supplied. *)
Theorem build_limit_needs_price_market_ignores_price
    (symbol side : string) (quantity : float)
    (price stop_price : option float) (time_in_force : string) :
  build_order_params symbol side "LIMIT" quantity None stop_price time_in_force
  = raise (ValueError "Price is required for LIMIT orders")
  /\ (exists order_params : gmap string value,
        build_order_params symbol side "MARKET" quantity price stop_price
          time_in_force = ret order_params
        /\ order_params = base_params symbol side "MARKET" quantity
        /\ order_params !! "price" = None
        /\ order_params !! "stopPrice" = None)
  /\ (forall c : Client,
        place_order c symbol side "MARKET" quantity price stop_price time_in_force
        = place_order c symbol side "MARKET" quantity None None time_in_force).
Proof.
  split; [| split].
  - reflexivity.
  - exists (base_params symbol side "MARKET" quantity).
    split; [reflexivity |]. split; [reflexivity |].
    split; [apply base_params_no_price | apply base_params_no_stop_price].
  - intros c. unfold place_order, place_order_body.
    change (PyStr.upper "MARKET") with "MARKET".
    unfold check_balance, check_limit_price.
    change (String.eqb "MARKET" "MARKET") with true.
    change (String.eqb "MARKET" "LIMIT") with false.
    reflexivity.
Qed.

(** ** Strings and slices *)

Lemma substring_all (s : string) : String.substring 0 (String.length s) s = s.
Proof. induction s as [| c s IH]; simpl; [reflexivity | now rewrite IH]. Qed.

Lemma append_cons (c : ascii) (a b : string) :
  String.append (String c a) b = String c (String.append a b).
Proof. reflexivity. Qed.

Lemma substring_split (s : string) (k : nat) :
  (k <= String.length s)%nat ->
  String.append (String.substring 0 k s)
    (String.substring k (String.length s - k) s) = s.
Proof.
  revert k. induction s as [| c s IH]; intros k Hk; simpl in *.
  - assert (k = 0%nat) as -> by lia. reflexivity.
  - destruct k as [| k]; simpl.
    + now rewrite substring_all.
    + rewrite append_cons, IH by lia. reflexivity.
Qed.

Lemma remove_last_append_last_chars (k : nat) (s : string) :
  (k <= String.length s)%nat ->
  String.append (remove_last k s) (last_chars k s) = s.
Proof.
  intros Hk. unfold remove_last, last_chars.
  replace k with (String.length s - (String.length s - k))%nat at 3 by lia.
  apply substring_split. lia.
Qed.

(** [s[:len(s)-k]] drops the last [k] characters when [s] has at least [k]
    characters, or at most [k/2]; in between, the negative bound
    [len(s)-k] counts from the end and fewer characters are dropped. *)
Lemma slice_to_remove_last (k : nat) (s : string) :
  (k <= String.length s \/ 2 * String.length s <= k)%nat ->
  PyStr.slice_to s (PyStr.len s - Z.of_nat k) = remove_last k s.
Proof.
  intros Hk. unfold PyStr.slice_to, remove_last, PyStr.bound, PyStr.len.
  f_equal. destruct (Z.ltb_spec (Z.of_nat (String.length s) - Z.of_nat k) 0); lia.
Qed.

Lemma slice_from_last_chars (k : nat) (s : string) :
  (k <= String.length s)%nat ->
  PyStr.slice_from s (PyStr.len s - Z.of_nat k) = last_chars k s.
Proof.
  intros Hk. unfold PyStr.slice_from, last_chars, PyStr.bound, PyStr.len.
  destruct (Z.ltb_spec (Z.of_nat (String.length s) - Z.of_nat k) 0);
    f_equal; lia.
Qed.

Lemma endswith_length (s suffix : string) :
  PyStr.endswith s suffix = true ->
  (String.length suffix <= String.length s)%nat
  /\ last_chars (String.length suffix) s = suffix.
Proof.
  unfold PyStr.endswith, last_chars.
  destruct (Nat.ltb_spec (String.length s) (String.length suffix)) as [Hlt | Hle];
    [discriminate |].
  intros H. apply String.eqb_eq in H. auto.
Qed.

(** ** The symbol resolver *)

Lemma resolve_usdt_symbol (symbol : string) :
  PyStr.endswith symbol "USDT" = true ->
  quote_asset symbol = last_chars 4 symbol
  /\ quote_asset symbol = "USDT"
  /\ base_asset symbol = remove_last 4 symbol
  /\ String.append (base_asset symbol) (quote_asset symbol) = symbol.
Proof.
  intros H. destruct (endswith_length _ _ H) as [Hlen Hlast]. simpl in Hlen, Hlast.
  unfold quote_asset, base_asset. rewrite H.
  rewrite (slice_from_last_chars 4) by exact Hlen.
  rewrite (slice_to_remove_last 4) by (left; exact Hlen).
  repeat split; try assumption.
  now apply remove_last_append_last_chars.
Qed.

Lemma resolve_other_symbol (symbol : string) :
  PyStr.endswith symbol "USDT" = false ->
  String.length symbol <> 2%nat ->
  quote_asset symbol = "USDT" /\ base_asset symbol = remove_last 3 symbol.
Proof.
  intros H Hlen. unfold quote_asset, base_asset. rewrite H.
  split; [reflexivity |].
  apply (slice_to_remove_last 3). lia.
Qed.

Example resolve_btcusdt :
  (base_asset "BTCUSDT", quote_asset "BTCUSDT") = ("BTC", "USDT").
Proof. reflexivity. Qed.

Example resolve_btceth :
  (base_asset "BTCETH", quote_asset "BTCETH") = ("BTC", "USDT").
Proof. reflexivity. Qed.

Example resolve_one_character :
  (base_asset "A", quote_asset "A") = ("", "USDT").
Proof. reflexivity. Qed.

(** C5, at the input where the code departs from it: for the two-character
    symbol "AB", which does not end in "USDT", the base asset computed is
    "A", while the symbol without its last three characters is the empty
    string.  The bound [len(symbol)-3] of the slice is [-1] there, and a
    negative bound counts from the end.  ([resolve_usdt_symbol] and
    [resolve_other_symbol] prove the claim for every other symbol.) *)
Theorem base_asset_of_two_characters :
  PyStr.endswith "AB" "USDT" = false
  /\ quote_asset "AB" = "USDT"
  /\ base_asset "AB" = "A"
  /\ remove_last 3 "AB" = "".
Proof. repeat split. Qed.

(** C6, at an input where the code departs from it: for "BTCETH" the base
    asset is "BTC" and the quote asset is the default "USDT"; their
    concatenation is "BTCUSDT", not the symbol.  ([resolve_usdt_symbol]
    proves the reconstruction for the symbols that end in "USDT".) *)
Theorem base_quote_of_btceth :
  String.append (base_asset "BTCETH") (quote_asset "BTCETH") = "BTCUSDT"
  /\ String.eqb (String.append (base_asset "BTCETH") (quote_asset "BTCETH"))
       "BTCETH" = false.
Proof. split; reflexivity. Qed.

(** ** The empty symbol *)

Lemma trace_place_order c symbol side order_type quantity price stop_price tif :
  fst (place_order c symbol side order_type quantity price stop_price tif)
  = trace (place_order_body c symbol side order_type quantity price stop_price tif).
Proof.
  unfold place_order, trace.
  now destruct (place_order_body _ _ _ _ _ _ _ _).
Qed.

Lemma result_place_order c symbol side order_type quantity price stop_price tif :
  snd (place_order c symbol side order_type quantity price stop_price tif)
  = match outcome (place_order_body c symbol side order_type quantity price
                     stop_price tif) with
    | Ok info => Ok info
    | Err e => Err (handle e)
    end.
Proof.
  unfold place_order, outcome.
  now destruct (place_order_body _ _ _ _ _ _ _ _).
Qed.

Lemma trace_bind_head {A B} (m : M A) (f : A -> M B) (c : call) (t : list call) :
  trace m = c :: t -> exists t', trace (bind m f) = c :: t'.
Proof.
  intros H. rewrite trace_bind, H. destruct (outcome m); simpl; eauto.
Qed.

Lemma check_balance_requests_account c symbol side order_type quantity price :
  exists t,
    trace (check_balance c symbol side order_type quantity price) = GetAccount :: t.
Proof.
  unfold check_balance.
  destruct (String.eqb side "BUY"); apply trace_bind_head with (t := []); reflexivity.
Qed.

(** C7, as the code has it: the empty symbol is not rejected.  It resolves
    to the base asset "" and the quote asset "USDT", and [place_order] on the
    empty symbol, with a valid side and order type, goes on to the balance
    check: its first request is the account's balances. *)
Theorem empty_symbol_passes_validation (c : Client) (side order_type : string)
    (quantity : float) (price stop_price : option float) (time_in_force : string) :
  str_in (PyStr.upper side) ["BUY"; "SELL"] = true ->
  str_in (PyStr.upper order_type) valid_order_types = true ->
  (base_asset "", quote_asset "") = ("", "USDT")
  /\ exists t,
       fst (place_order c "" side order_type quantity price stop_price time_in_force)
       = GetAccount :: t.
Proof.
  intros Hside Htype. split; [reflexivity |].
  rewrite trace_place_order. unfold place_order_body, validate_side, validate_order_type.
  rewrite Hside, Htype, !bind_ret.
  destruct (check_balance_requests_account c (PyStr.upper "") (PyStr.upper side)
              (PyStr.upper order_type) quantity price) as [t Ht].
  eapply trace_bind_head. exact Ht.
Qed.

Lemma empty_symbol_passes_validation_witness :
  (base_asset "", quote_asset "") = ("", "USDT")
  /\ exists t,
       fst (place_order (sample_client 100 0 50000) "" "buy" "market" 0.001
              None None "GTC")
       = GetAccount :: t.
Proof.
  apply (empty_symbol_passes_validation (sample_client 100 0 50000) "buy" "market");
    reflexivity.
Defined.

(** C7 as stated fails: an order on the empty symbol passes every check and
    is submitted, with the symbol "" in the request. *)
Lemma empty_symbol_is_submitted :
  place_order (sample_client 100 0 50000) "" "BUY" "MARKET" 0.001 None None "GTC"
  = ([GetAccount; GetSymbolTicker "";
      CreateOrder (base_params "" "BUY" "MARKET" 0.001);
      GetOrder "" (VInt 1)],
     Ok {| order_response := sample_response; order_details := sample_response |}).
Proof. vm_compute. reflexivity. Qed.

(** ** Requests made by each block *)

Lemma bind_ext {A B} (m : M A) (f g : A -> M B) :
  (forall a, f a = g a) -> bind m f = bind m g.
Proof.
  intros H. destruct m as [t [a | e]]; [| reflexivity].
  unfold bind. now rewrite H.
Qed.

Lemma quiet_ret {A} (a : A) : quiet (ret a).
Proof. reflexivity. Qed.

Lemma quiet_raise {A} (e : exn) : quiet (@raise A e).
Proof. reflexivity. Qed.

Lemma quiet_bind {A B} (m : M A) (f : A -> M B) :
  quiet m -> (forall a, quiet (f a)) -> quiet (bind m f).
Proof.
  unfold quiet. intros Hm Hf. rewrite trace_bind.
  destruct (outcome m) as [a | e]; [| exact Hm].
  rewrite existsb_app, Hm. apply Hf.
Qed.

Lemma quiet_request {A} (c : call) (answer : result client_error A) :
  is_create_order c = false -> quiet (request c answer).
Proof. unfold quiet, request. simpl. now intros ->. Qed.

Lemma quiet_fdiv x y : quiet (fdiv x y).
Proof. unfold fdiv. destruct (PrimFloat.is_zero y); reflexivity. Qed.

Lemma quiet_operand price : quiet (operand price).
Proof. destruct price; reflexivity. Qed.

Lemma quiet_get_current_price c symbol : quiet (get_current_price c symbol).
Proof. now apply quiet_request. Qed.

Ltac quiet_step :=
  first
    [ apply quiet_ret | apply quiet_raise | apply quiet_fdiv
    | apply quiet_operand | apply quiet_get_current_price
    | apply quiet_request; reflexivity
    | apply quiet_bind; [| intros ? ]
    | match goal with
      | |- quiet (if ?b then _ else _) => destruct b
      | |- quiet (match ?o with Some _ => _ | None => _ end) => destruct o
      | |- quiet (let '(_, _) := ?p in _) => destruct p
      end ].



Lemma quiet_check_balance c symbol side order_type quantity price :
  quiet (check_balance c symbol side order_type quantity price).
Proof. unfold check_balance. repeat quiet_step. Qed.



Lemma place_order_body_split c symbol side order_type quantity price stop_price tif :
  place_order_body c symbol side order_type quantity price stop_price tif
  = bind (prepare c (PyStr.upper symbol) (PyStr.upper side)
            (PyStr.upper order_type) quantity price stop_price tif)
      (submit c (PyStr.upper symbol)).
Proof.
  unfold place_order_body, prepare. cbv zeta.
  rewrite (bind_assoc (validate_side _)). apply bind_ext; intros _.
  rewrite (bind_assoc (validate_order_type _)). apply bind_ext; intros _.
  rewrite (bind_assoc (check_balance _ _ _ _ _ _)). apply bind_ext; intros _.
  rewrite (bind_assoc (check_limit_price _ _ _ _)). apply bind_ext; intros _.
  reflexivity.
Qed.




(** ** Validation and submission *)




(** ** The price deviation guard *)

Lemma check_limit_price_computed c symbol p current_price :
  get_symbol_ticker c (PyStr.upper symbol) = Ok current_price ->
  PrimFloat.is_zero current_price = false ->
  check_limit_price c symbol "LIMIT" (Some p)
  = ([GetSymbolTicker (PyStr.upper symbol)],
     if (20 <? deviation p current_price)%float
     then Err (PriceTooFar p current_price (current_price * 0.8)%float
                 (current_price * 1.2)%float)
     else Ok tt).
Proof.
  intros Hticker Hzero.
  unfold check_limit_price, get_current_price, request, fdiv, deviation.
  change (String.eqb "LIMIT" "LIMIT") with true. cbv iota.
  rewrite Hticker, bind_ok, Hzero, bind_ret.
  destruct (20 <? abs (p - current_price) / current_price * 100)%float;
    reflexivity.
Qed.

Lemma check_limit_price_skipped c symbol order_type price :
  String.eqb order_type "LIMIT" = false \/ price = None ->
  check_limit_price c symbol order_type price = ret tt.
Proof.
  unfold check_limit_price. intros [-> | ->]; [reflexivity |].
  now destruct (String.eqb order_type "LIMIT").
Qed.

Lemma build_limit_order symbol side quantity p stop_price tif :
  build_order_params symbol side "LIMIT" quantity (Some p) stop_price tif
  = ret (<["timeInForce" := VStr tif]>
           (<["price" := VFloat p]> (base_params symbol side "LIMIT" quantity))).
Proof. reflexivity. Qed.

Lemma submit_requests_order c symbol order_params :
  exists t, trace (submit c symbol order_params) = CreateOrder order_params :: t.
Proof. unfold submit. apply trace_bind_head with (t := []). reflexivity. Qed.

(** A LIMIT order with a price, a valid side and a sufficient balance: what
    [place_order] does is decided by the price check. *)
Lemma place_limit_order_after_balance c symbol side quantity p stop_price tif
    current_price t :
  str_in (PyStr.upper side) ["BUY"; "SELL"] = true ->
  check_balance c (PyStr.upper symbol) (PyStr.upper side) "LIMIT" quantity (Some p)
  = (t, Ok tt) ->
  get_symbol_ticker c (PyStr.upper symbol) = Ok current_price ->
  PrimFloat.is_zero current_price = false ->
  place_order_body c symbol side "LIMIT" quantity (Some p) stop_price tif
  = if (20 <? deviation p current_price)%float
    then ((t ++ [GetSymbolTicker (PyStr.upper symbol)])%list,
          Err (PriceTooFar p current_price (current_price * 0.8)%float
                 (current_price * 1.2)%float))
    else bind ((t ++ [GetSymbolTicker (PyStr.upper symbol)])%list, Ok tt)
           (fun _ =>
              submit c (PyStr.upper symbol)
                (<["timeInForce" := VStr tif]>
                   (<["price" := VFloat p]>
                      (base_params (PyStr.upper symbol) (PyStr.upper side)
                         "LIMIT" quantity)))).
Proof.
  intros Hside Hbal Hticker Hzero.
  rewrite place_order_body_split. unfold prepare, validate_side.
  change (PyStr.upper "LIMIT") with "LIMIT".
  rewrite Hside, bind_ret.
  change (validate_order_type "LIMIT") with (@ret unit tt).
  rewrite bind_ret, Hbal.
  rewrite (check_limit_price_computed c (PyStr.upper symbol) p current_price)
    by (rewrite ?upper_idempotent; assumption).
  rewrite upper_idempotent.
  destruct (20 <? deviation p current_price)%float.
  - reflexivity.
  - rewrite build_limit_order. rewrite !bind_ok. cbn [ret trace outcome fst snd].
    rewrite !app_nil_r. rewrite bind_ok. reflexivity.
Qed.

(** X18: the rule of the price guard.  For a LIMIT order with a price, the guard
    computes the deviation [|price - marketPrice| / marketPrice * 100] and
    rejects exactly when it is greater than 20: the error then carries the
    band [marketPrice * 0.8, marketPrice * 1.2], and a computed deviation of
    exactly 20 passes.  In [place_order], once the side is valid and the
    balance suffices, the order is rejected with that error, and not
    submitted, when the deviation is greater than 20, and it is submitted
    otherwise.  The market price is what the exchange answers for the
    symbol; it is not zero (the division raises [ZeroDivisionError] on a zero
    price). *)
Theorem price_deviation_guard (c : Client) (symbol side : string)
    (quantity p : float) (stop_price : option float) (time_in_force : string)
    (market_price : float) :
  get_symbol_ticker c (PyStr.upper symbol) = Ok market_price ->
  PrimFloat.is_zero market_price = false ->
  outcome (check_limit_price c symbol "LIMIT" (Some p))
  = (if (20 <? deviation p market_price)%float
     then Err (PriceTooFar p market_price (market_price * 0.8)%float
                 (market_price * 1.2)%float)
     else Ok tt)
  /\ (deviation p market_price = 20%float ->
      outcome (check_limit_price c symbol "LIMIT" (Some p)) = Ok tt)
  /\ (str_in (PyStr.upper side) ["BUY"; "SELL"] = true ->
      outcome (check_balance c (PyStr.upper symbol) (PyStr.upper side) "LIMIT"
                 quantity (Some p)) = Ok tt ->
      if (20 <? deviation p market_price)%float
      then
        snd (place_order c symbol side "LIMIT" quantity (Some p) stop_price
               time_in_force)
        = Err (FailedToPlaceOrder
                 (PriceTooFar p market_price (market_price * 0.8)%float
                    (market_price * 1.2)%float))
        /\ existsb is_create_order
             (fst (place_order c symbol side "LIMIT" quantity (Some p)
                     stop_price time_in_force)) = false
      else
        existsb is_create_order
          (fst (place_order c symbol side "LIMIT" quantity (Some p) stop_price
                  time_in_force)) = true).
Proof.
  intros Hticker Hzero.
  pose proof (check_limit_price_computed c symbol p market_price Hticker Hzero)
    as Hguard.
  split; [| split].
  - rewrite Hguard. reflexivity.
  - intros Hdev. rewrite Hguard, Hdev. reflexivity.
  - intros Hside Hbal.
    pose proof (quiet_check_balance c (PyStr.upper symbol) (PyStr.upper side)
                  "LIMIT" quantity (Some p)) as Hquiet.
    unfold quiet in Hquiet.
    destruct (check_balance c (PyStr.upper symbol) (PyStr.upper side) "LIMIT"
                quantity (Some p)) as [t [[] | e]] eqn:Hcb;
      [| discriminate].
    cbn [trace fst] in Hquiet.
    rewrite trace_place_order, result_place_order.
    rewrite (place_limit_order_after_balance c symbol side quantity p stop_price
               time_in_force market_price t Hside Hcb Hticker Hzero).
    destruct (20 <? deviation p market_price)%float.
    + split; [reflexivity |].
      cbn [trace fst]. now rewrite existsb_app, Hquiet.
    + rewrite trace_bind. cbn [trace outcome fst snd].
      destruct (submit_requests_order c (PyStr.upper symbol)
                  (<["timeInForce" := VStr time_in_force]>
                     (<["price" := VFloat p]>
                        (base_params (PyStr.upper symbol) (PyStr.upper side)
                           "LIMIT" quantity)))) as [t' Ht'].
      rewrite Ht', !existsb_app. cbn [existsb is_create_order].
      now rewrite orb_true_r.
Qed.

(** The example of the specification: at the market price 50000, the limit
    price 40000 (that is [0.8 * 50000]) has a deviation of exactly 20 and
    passes; 60001 is rejected with the band from 40000 to 60000. *)
Lemma price_deviation_guard_witness :
  (0.8 * 50000 = 40000)%float
  /\ deviation 40000 50000 = 20%float
  /\ outcome (check_limit_price (sample_client 100 0 50000) "BTCUSDT" "LIMIT"
                (Some 40000%float)) = Ok tt
  /\ outcome (check_limit_price (sample_client 100 0 50000) "BTCUSDT" "LIMIT"
                (Some 60001%float))
     = Err (PriceTooFar 60001 50000 40000 60000)
  /\ existsb is_create_order
       (fst (place_order (sample_client 100 0 50000) "BTCUSDT" "BUY" "LIMIT"
               0.001 (Some 40000%float) None "GTC")) = true.
Proof.
  split; [reflexivity |]. split; [reflexivity |].
  split; [| split].
  - apply (proj1 (proj2 (price_deviation_guard (sample_client 100 0 50000)
                           "BTCUSDT" "BUY" 0.001 40000 None "GTC" 50000
                           eq_refl eq_refl))).
    reflexivity.
  - exact (proj1 (price_deviation_guard (sample_client 100 0 50000)
                    "BTCUSDT" "BUY" 0.001 60001 None "GTC" 50000
                    eq_refl eq_refl)).
  - exact (proj2 (proj2 (price_deviation_guard (sample_client 100 0 50000)
                           "BTCUSDT" "BUY" 0.001 40000 None "GTC" 50000
                           eq_refl eq_refl)) eq_refl eq_refl).
Defined.

(** The examples of the specification at the market price 50000. *)
Example limit_price_39999_99_rejected :
  outcome (check_limit_price (sample_client 100 0 50000) "BTCUSDT" "LIMIT"
             (Some 39999.99%float))
  = Err (PriceTooFar 39999.99 50000 40000 60000).
Proof. reflexivity. Qed.

Example limit_price_40000_01_accepted :
  outcome (check_limit_price (sample_client 100 0 50000) "BTCUSDT" "LIMIT"
             (Some 40000.01%float)) = Ok tt.
Proof. reflexivity. Qed.

(** In binary64 the lower end of the band is not always a price with a
    deviation of exactly 20: at the market price 43, [43 * 0.8] is 34.4 and
    its deviation rounds to a float greater than 20. *)
Example band_end_at_43 :
  (43 * 0.8 = 34.4)%float
  /\ (20 <? deviation 34.4 43)%float = true.
Proof. split; reflexivity. Qed.

(** C1, at inputs where the code departs from it.  The price
    [0.8 * marketPrice] is not always accepted: at the market price 43 the
    price [0.8 * 43], which is 34.4, has a computed deviation of
    20.000000000000004 and the guard rejects it, with an error whose band
    starts at that very price; and so does [place_order], after the account
    and the price requests, without submitting.  The same at the other end
    of the band: at the market price 7 the price [1.2 * 7], which is 8.4, is
    rejected with a band that ends at 8.4.  ([price_deviation_guard] proves
    the rule of the claim, rejection exactly when the computed deviation is
    greater than 20, for every price and every market price that is not
    zero.) *)
Theorem band_ends_are_rejected :
  (0.8 * 43 = 34.4)%float
  /\ deviation (0.8 * 43) 43 = 20.000000000000004%float
  /\ check_limit_price (sample_client 100 1 43) "BTCUSDT" "LIMIT"
       (Some (0.8 * 43)%float)
     = ([GetSymbolTicker "BTCUSDT"], Err (PriceTooFar 34.4 43 34.4 51.6))
  /\ place_order (sample_client 100 1 43) "BTCUSDT" "SELL" "LIMIT" 0.5
       (Some (0.8 * 43)%float) None "GTC"
     = ([GetAccount; GetSymbolTicker "BTCUSDT"],
        Err (FailedToPlaceOrder (PriceTooFar 34.4 43 34.4 51.6)))
  /\ (1.2 * 7 = 8.4)%float
  /\ check_limit_price (sample_client 100 1 7) "BTCUSDT" "LIMIT"
       (Some (1.2 * 7)%float)
     = ([GetSymbolTicker "BTCUSDT"],
        Err (PriceTooFar 8.4 7 5.6000000000000005 8.4)).
Proof. repeat split; vm_compute; reflexivity. Qed.

(** ** The balance guard *)

Lemma check_balance_buy_market c symbol quantity price balances market_price :
  get_account c = Ok balances ->
  get_symbol_ticker c (PyStr.upper symbol) = Ok market_price ->
  check_balance c symbol "BUY" "MARKET" quantity price
  = ([GetAccount; GetSymbolTicker (PyStr.upper symbol)],
     insufficient_quote (free_balance (quote_asset symbol) balances)
       (quote_asset symbol) (quantity * market_price * 1.01)%float market_price
       (base_asset symbol)).
Proof.
  intros Hacc Hticker.
  unfold check_balance, get_current_price, request, fdiv, insufficient_quote.
  change (String.eqb "BUY" "BUY") with true.
  change (String.eqb "MARKET" "MARKET") with true. cbv iota.
  rewrite Hacc, Hticker. cbv [bind ret raise trace outcome fst snd app].
  destruct (free_balance (quote_asset symbol) balances
            <? quantity * market_price * 1.01)%float; [| reflexivity].
  destruct (PrimFloat.is_zero market_price); reflexivity.
Qed.

Lemma check_balance_buy_priced c symbol order_type quantity p balances :
  get_account c = Ok balances ->
  String.eqb order_type "MARKET" = false ->
  check_balance c symbol "BUY" order_type quantity (Some p)
  = ([GetAccount],
     insufficient_quote (free_balance (quote_asset symbol) balances)
       (quote_asset symbol) (quantity * p)%float p (base_asset symbol)).
Proof.
  intros Hacc Htype.
  unfold check_balance, request, fdiv, operand, insufficient_quote.
  change (String.eqb "BUY" "BUY") with true. cbv iota.
  rewrite Hacc, Htype. cbv [bind ret raise trace outcome fst snd app].
  destruct (free_balance (quote_asset symbol) balances <? quantity * p)%float;
    [| reflexivity].
  destruct (PrimFloat.is_zero p); reflexivity.
Qed.

Lemma check_balance_buy_unpriced c symbol order_type quantity balances :
  get_account c = Ok balances ->
  String.eqb order_type "MARKET" = false ->
  check_balance c symbol "BUY" order_type quantity None = ([GetAccount], Err TypeError).
Proof.
  intros Hacc Htype. unfold check_balance, request, operand.
  change (String.eqb "BUY" "BUY") with true. cbv iota.
  rewrite Hacc, Htype. reflexivity.
Qed.

Lemma check_balance_sell c symbol side order_type quantity price balances :
  get_account c = Ok balances ->
  String.eqb side "BUY" = false ->
  check_balance c symbol side order_type quantity price
  = ([GetAccount],
     let held := free_balance (base_asset symbol) balances in
     if (held <? quantity)%float
     then Err (InsufficientBalance held (base_asset symbol) quantity held
                 (base_asset symbol))
     else Ok tt).
Proof.
  intros Hacc Hside. unfold check_balance, request.
  rewrite Hside, Hacc, bind_ok. cbv zeta.
  destruct (free_balance (base_asset symbol) balances <? quantity)%float;
    reflexivity.
Qed.

Lemma check_balance_no_account c symbol side order_type quantity price e :
  get_account c = Err e ->
  check_balance c symbol side order_type quantity price
  = ([GetAccount], Err (ClientError e)).
Proof.
  intros Hacc. unfold check_balance, request. rewrite Hacc.
  now destruct (String.eqb side "BUY").
Qed.

(** Only the [free] amounts are read. *)
Lemma free_balance_ignores_locked (a : string) (balances : list Balance)
    (relock : Balance -> float) :
  free_balance a
    (map (fun b => {| asset := asset b; free := free b; locked := relock b |})
       balances)
  = free_balance a balances.
Proof.
  induction balances as [| b rest IH]; simpl; [reflexivity |].
  now rewrite IH.
Qed.

Lemma check_balance_ignores_locked c c' symbol side order_type quantity price
    balances f :
  get_account c = Ok balances ->
  get_account c' = Ok (relock f balances) ->
  get_symbol_ticker c' = get_symbol_ticker c ->
  check_balance c' symbol side order_type quantity price
  = check_balance c symbol side order_type quantity price.
Proof.
  intros Hacc Hacc' Hticker.
  unfold check_balance, get_current_price, request.
  rewrite Hacc, Hacc', Hticker. unfold relock.
  cbv [bind]. rewrite !free_balance_ignores_locked. reflexivity.
Qed.

(** C2: with the balances the account request answers, a BUY needs
    [quantity * marketPrice * 1.01] of the quote asset when the order is a
    MARKET order and [quantity * price] for every other type, a SELL needs
    [quantity] of the base asset; the amount compared is the [free] amount
    of that asset, and the order is rejected, with the insufficient-balance
    error, exactly when the free amount is less than the amount needed.
    The locked amounts are not read: other locked amounts give the same
    result.  (The reference price of a BUY is not zero: the suggested
    quantity divides by it.) *)
Theorem balance_guard_requirement (c : Client) (symbol : string)
    (quantity : float) (balances : list Balance) :
  get_account c = Ok balances ->
  (forall (price : option float) (market_price : float),
      get_symbol_ticker c (PyStr.upper symbol) = Ok market_price ->
      PrimFloat.is_zero market_price = false ->
      let held := free_balance (quote_asset symbol) balances in
      let required := (quantity * market_price * 1.01)%float in
      outcome (check_balance c symbol "BUY" "MARKET" quantity price)
      = if (held <? required)%float
        then Err (InsufficientBalance held (quote_asset symbol) required
                    (held / market_price)%float (base_asset symbol))
        else Ok tt)
  /\ (forall (order_type : string) (p : float),
         String.eqb order_type "MARKET" = false ->
         PrimFloat.is_zero p = false ->
         let held := free_balance (quote_asset symbol) balances in
         let required := (quantity * p)%float in
         outcome (check_balance c symbol "BUY" order_type quantity (Some p))
         = if (held <? required)%float
           then Err (InsufficientBalance held (quote_asset symbol) required
                       (held / p)%float (base_asset symbol))
           else Ok tt)
  /\ (forall (order_type : string) (price : option float),
         let held := free_balance (base_asset symbol) balances in
         outcome (check_balance c symbol "SELL" order_type quantity price)
         = if (held <? quantity)%float
           then Err (InsufficientBalance held (base_asset symbol) quantity held
                       (base_asset symbol))
           else Ok tt)
  /\ (forall (c' : Client) (f : Balance -> float) (side order_type : string)
             (price : option float),
         get_account c' = Ok (relock f balances) ->
         get_symbol_ticker c' = get_symbol_ticker c ->
         check_balance c' symbol side order_type quantity price
         = check_balance c symbol side order_type quantity price).
Proof.
  intros Hacc. repeat split.
  - intros price market_price Hticker Hzero held required.
    rewrite (check_balance_buy_market c symbol quantity price balances
               market_price Hacc Hticker).
    unfold insufficient_quote. rewrite Hzero. reflexivity.
  - intros order_type p Htype Hzero held required.
    rewrite (check_balance_buy_priced c symbol order_type quantity p balances
               Hacc Htype).
    unfold insufficient_quote. rewrite Hzero. reflexivity.
  - intros order_type price held.
    rewrite (check_balance_sell c symbol "SELL" order_type quantity price
               balances Hacc eq_refl).
    reflexivity.
  - intros c' f side order_type price Hacc' Hticker.
    now apply check_balance_ignores_locked with (balances := balances) (f := f).
Qed.

(** The examples of the specification: with 10 USDT free, a MARKET BUY of
    0.001 BTC at 50000 needs 50.5 USDT and is rejected; with 100 USDT free it
    passes.  A LIMIT BUY needs [quantity * price]; a SELL of 2 BTC with 1 BTC
    free is rejected though 5 more are locked. *)
Lemma balance_guard_requirement_witness :
  outcome (check_balance (sample_client 10 0 50000) "BTCUSDT" "BUY" "MARKET"
             0.001 None)
  = Err (InsufficientBalance 10 "USDT" 50.5 (10 / 50000) "BTC")
  /\ outcome (check_balance (sample_client 100 0 50000) "BTCUSDT" "BUY" "MARKET"
                0.001 None) = Ok tt
  /\ outcome (check_balance (sample_client 100 0 50000) "BTCUSDT" "BUY" "LIMIT"
                0.01 (Some 45000%float))
     = Err (InsufficientBalance 100 "USDT" 450 (100 / 45000) "BTC")
  /\ outcome (check_balance (sample_client 100 1 50000) "BTCUSDT" "SELL" "MARKET"
                2 None)
     = Err (InsufficientBalance 1 "BTC" 2 1 "BTC").
Proof.
  split; [| split; [| split]].
  - exact (proj1 (balance_guard_requirement (sample_client 10 0 50000)
                    "BTCUSDT" 0.001 _ eq_refl) None 50000%float eq_refl eq_refl).
  - exact (proj1 (balance_guard_requirement (sample_client 100 0 50000)
                    "BTCUSDT" 0.001 _ eq_refl) None 50000%float eq_refl eq_refl).
  - exact (proj1 (proj2 (balance_guard_requirement (sample_client 100 0 50000)
                           "BTCUSDT" 0.01 _ eq_refl))
             "LIMIT" 45000%float eq_refl eq_refl).
  - exact (proj1 (proj2 (proj2 (balance_guard_requirement
                                  (sample_client 100 1 50000) "BTCUSDT" 2 _
                                  eq_refl)))
             "MARKET" None).
Defined.

Lemma check_balance_ticker_error c symbol quantity price e :
  get_symbol_ticker c (PyStr.upper symbol) = Err e ->
  exists e', outcome (check_balance c symbol "BUY" "MARKET" quantity price)
             = Err (ClientError e').
Proof.
  intros Hticker. unfold check_balance, get_current_price, request.
  change (String.eqb "BUY" "BUY") with true.
  change (String.eqb "MARKET" "MARKET") with true. cbv iota.
  rewrite Hticker.
  destruct (get_account c) as [balances | e0]; [exists e | exists e0];
    reflexivity.
Qed.

(** What the error of the balance guard holds, at both places that raise
    it.  Whenever the guard rejects, the account was read, the free amount
    held is less than the amount required, and the error carries the asset
    held, the amount held and the amount required; for a BUY the asset is the
    quote asset and the quantity in the message is [held / reference], where
    the reference is the market price for a MARKET order and the limit price
    otherwise; for a SELL the asset is the base asset, the amount required
    is the quantity, and the quantity in the message is the amount held
    itself. *)
Theorem insufficient_balance_error_contents (c : Client)
    (symbol side order_type : string) (quantity : float) (price : option float)
    (held : float) (held_asset : string) (required max_quantity : float)
    (base : string) :
  outcome (check_balance c symbol side order_type quantity price)
  = Err (InsufficientBalance held held_asset required max_quantity base) ->
  exists balances : list Balance,
    get_account c = Ok balances
    /\ base = base_asset symbol
    /\ held = free_balance held_asset balances
    /\ (held <? required)%float = true
    /\ if String.eqb side "BUY" then
         held_asset = quote_asset symbol
         /\ exists reference : float,
              (if String.eqb order_type "MARKET"
               then get_symbol_ticker c (PyStr.upper symbol) = Ok reference
                    /\ required = (quantity * reference * 1.01)%float
               else price = Some reference
                    /\ required = (quantity * reference)%float)
              /\ max_quantity = (held / reference)%float
       else
         held_asset = base_asset symbol
         /\ required = quantity
         /\ max_quantity = held.
Proof.
  intros H.
  destruct (get_account c) as [balances | e] eqn:Hacc;
    [| rewrite (check_balance_no_account _ _ _ _ _ _ _ Hacc) in H; discriminate].
  exists balances. split; [reflexivity |].
  destruct (String.eqb side "BUY") eqn:Hside.
  - apply String.eqb_eq in Hside. subst side.
    destruct (String.eqb order_type "MARKET") eqn:Htype.
    + apply String.eqb_eq in Htype. subst order_type.
      destruct (get_symbol_ticker c (PyStr.upper symbol)) as [mp | e] eqn:Hticker.
      * rewrite (check_balance_buy_market _ _ _ _ _ _ Hacc Hticker) in H.
        unfold insufficient_quote in H. cbn [outcome snd] in H.
        destruct (free_balance (quote_asset symbol) balances
                  <? quantity * mp * 1.01)%float eqn:Hlt; [| discriminate].
        destruct (PrimFloat.is_zero mp); [discriminate |].
        injection H as <- <- <- <- <-.
        repeat split; try assumption. exists mp. repeat split.
      * destruct (check_balance_ticker_error c symbol quantity price e Hticker)
          as [e' H']; rewrite H' in H; discriminate.
    + destruct price as [p |].
      * rewrite (check_balance_buy_priced _ _ _ _ _ _ Hacc Htype) in H.
        unfold insufficient_quote in H. cbn [outcome snd] in H.
        destruct (free_balance (quote_asset symbol) balances
                  <? quantity * p)%float eqn:Hlt; [| discriminate].
        destruct (PrimFloat.is_zero p); [discriminate |].
        injection H as <- <- <- <- <-.
        repeat split; try assumption. exists p. repeat split.
      * rewrite (check_balance_buy_unpriced _ _ _ _ _ Hacc Htype) in H.
        discriminate.
  - rewrite (check_balance_sell _ _ _ _ _ _ _ Hacc Hside) in H.
    cbn [outcome snd] in H. cbv zeta in H.
    destruct (free_balance (base_asset symbol) balances <? quantity)%float eqn:Hlt;
      [| discriminate].
    injection H as <- <- <- <- <-.
    repeat split; assumption.
Qed.

Lemma insufficient_balance_error_contents_witness :
  exists balances : list Balance,
    get_account (sample_client 10 0 50000) = Ok balances
    /\ "BTC" = base_asset "BTCUSDT"
    /\ 10%float = free_balance "USDT" balances
    /\ (10 <? 50.5)%float = true
    /\ "USDT" = quote_asset "BTCUSDT"
    /\ exists reference : float,
         (get_symbol_ticker (sample_client 10 0 50000) (PyStr.upper "BTCUSDT")
          = Ok reference
          /\ 50.5%float = (0.001 * reference * 1.01)%float)
         /\ (10 / 50000)%float = (10 / reference)%float.
Proof.
  exact (insufficient_balance_error_contents (sample_client 10 0 50000)
           "BTCUSDT" "BUY" "MARKET" 0.001 None 10 "USDT" 50.5 (10 / 50000) "BTC"
           eq_refl).
Defined.

(** The quantities the messages suggest, at a SELL and at the BUY MARKET
    order of the specification's example (10 USDT held, market price 50000,
    quantity 0.001): for the SELL the amount held; for the BUY
    [10 / 50000], which the message prints as 0.000200, while 0.000198 is
    [10 / (50000 * 1.01)]. *)
Lemma suggested_quantity_of_sell_and_of_example :
  outcome (check_balance (sample_client 100 1 50000) "BTCUSDT" "SELL" "LIMIT" 2
             (Some 50000%float))
  = Err (InsufficientBalance 1 "BTC" 2 1 "BTC")
  /\ (1 / 50000 <? 1)%float = true
  /\ outcome (check_balance (sample_client 10 0 50000) "BTCUSDT" "BUY" "MARKET"
                0.001 None)
     = Err (InsufficientBalance 10 "USDT" 50.5 (10 / 50000) "BTC")
  /\ format_6f (10 / 50000) = "0.000200"
  /\ format_6f (10 / (50000 * 1.01)) = "0.000198".
Proof. repeat split; vm_compute; reflexivity. Qed.

(** C3, as the code has it by design: whenever the balance guard rejects,
    the account was read, the free amount held is less than the amount
    required, and the error carries the asset held, the amount held, the
    amount required and a suggested quantity.  For a BUY the asset is the
    quote asset, and for a BUY that is not a MARKET order the suggested
    quantity is [held / price], with the limit price.  For a SELL the asset
    is the base asset, the amount required is the quantity, and the
    suggested quantity is the amount held itself.  (What is suggested for a
    BUY MARKET order is left out here.) *)
Theorem insufficient_balance_error_fields (c : Client)
    (symbol side order_type : string) (quantity : float) (price : option float)
    (held : float) (held_asset : string) (required max_quantity : float)
    (base : string) :
  outcome (check_balance c symbol side order_type quantity price)
  = Err (InsufficientBalance held held_asset required max_quantity base) ->
  exists balances : list Balance,
    get_account c = Ok balances
    /\ base = base_asset symbol
    /\ held = free_balance held_asset balances
    /\ (held <? required)%float = true
    /\ if String.eqb side "BUY" then
         held_asset = quote_asset symbol
         /\ if String.eqb order_type "MARKET" then
              exists market_price : float,
                get_symbol_ticker c (PyStr.upper symbol) = Ok market_price
                /\ required = (quantity * market_price * 1.01)%float
            else
              exists p : float,
                price = Some p
                /\ required = (quantity * p)%float
                /\ max_quantity = (held / p)%float
       else
         held_asset = base_asset symbol
         /\ required = quantity
         /\ max_quantity = held.
Proof.
  intros H.
  destruct (insufficient_balance_error_contents _ _ _ _ _ _ _ _ _ _ _ H)
    as (balances & Hacc & Hbase & Hheld & Hlt & Hrest).
  exists balances. repeat (split; [assumption |]).
  destruct (String.eqb side "BUY"); [| exact Hrest].
  destruct Hrest as (Hasset & reference & Href & Hmax).
  split; [exact Hasset |].
  destruct (String.eqb order_type "MARKET").
  - exists reference. exact Href.
  - exists reference. destruct Href as [Hprice Hreq]. auto.
Qed.

(** A LIMIT BUY of 0.01 BTC at 45000 with 100 USDT free: 450 USDT are
    needed, and the quantity suggested is [100 / 45000]. *)
Lemma insufficient_balance_error_fields_witness :
  exists balances : list Balance,
    get_account (sample_client 100 0 50000) = Ok balances
    /\ "BTC" = base_asset "BTCUSDT"
    /\ 100%float = free_balance "USDT" balances
    /\ (100 <? 450)%float = true
    /\ "USDT" = quote_asset "BTCUSDT"
    /\ exists p : float,
         Some 45000%float = Some p
         /\ 450%float = (0.01 * p)%float
         /\ (100 / 45000)%float = (100 / p)%float.
Proof.
  exact (insufficient_balance_error_fields (sample_client 100 0 50000)
           "BTCUSDT" "BUY" "LIMIT" 0.01 (Some 45000%float) 100 "USDT" 450
           (100 / 45000) "BTC" eq_refl).
Defined.

(** C3 as stated fails at a SELL: with 1 BTC free, a SELL of 2 BTC at the
    limit price 50000 is rejected with the suggestion to lower the quantity
    to 1, the amount held, and not to [1 / 50000], the amount held divided
    by the reference price. *)
Lemma sell_suggestion_is_the_amount_held :
  check_balance (sample_client 100 1 50000) "BTCUSDT" "SELL" "LIMIT" 2
    (Some 50000%float)
  = ([GetAccount], Err (InsufficientBalance 1 "BTC" 2 1 "BTC"))
  /\ (1 / 50000 <? 1)%float = true.
Proof. split; vm_compute; reflexivity. Qed.

(** The suggestion of a BUY MARKET rejection does not carry the buffer of
    the check that made it.  In the example of the specification the
    quantity suggested is [10 / 50000]; an order of that quantity needs
    10.1 USDT and is rejected again, while [10 / (50000 * 1.01)] passes.
    The suggestion of a LIMIT BUY, [held / price], passes its own check. *)
Example buy_market_suggestion_is_rejected_again :
  outcome (check_balance (sample_client 10 0 50000) "BTCUSDT" "BUY" "MARKET"
             (10 / 50000) None)
  = Err (InsufficientBalance 10 "USDT" 10.1 (10 / 50000) "BTC")
  /\ outcome (check_balance (sample_client 10 0 50000) "BTCUSDT" "BUY" "MARKET"
                (10 / (50000 * 1.01)) None) = Ok tt
  /\ outcome (check_balance (sample_client 10 0 50000) "BTCUSDT" "BUY" "LIMIT"
                (10 / 50000) (Some 50000%float)) = Ok tt.
Proof. repeat split; vm_compute; reflexivity. Qed.

(** ** The order of the two guards *)

(** The balance check of an order that is not a MARKET order asks for no
    price. *)
Lemma check_balance_asks_no_price c symbol side order_type quantity price :
  String.eqb order_type "MARKET" = false ->
  existsb is_get_symbol_ticker
    (trace (check_balance c symbol side order_type quantity price)) = false.
Proof.
  intros Htype. unfold check_balance, request, operand, fdiv.
  rewrite Htype.
  destruct (String.eqb side "BUY"), (get_account c) as [balances | e];
    try reflexivity.
  - destruct price as [p |]; [| reflexivity].
    cbv [bind ret raise trace outcome fst snd app].
    destruct (free_balance (quote_asset symbol) balances <? quantity * p)%float;
      [| reflexivity].
    destruct (PrimFloat.is_zero p); reflexivity.
  - cbv [bind ret raise trace outcome fst snd app].
    destruct (free_balance (base_asset symbol) balances <? quantity)%float;
      reflexivity.
Qed.

Lemma place_order_balance_rejected c symbol side order_type quantity price
    stop_price tif t e :
  str_in (PyStr.upper side) ["BUY"; "SELL"] = true ->
  str_in (PyStr.upper order_type) valid_order_types = true ->
  check_balance c (PyStr.upper symbol) (PyStr.upper side) (PyStr.upper order_type)
    quantity price = (t, Err e) ->
  place_order_body c symbol side order_type quantity price stop_price tif
  = (t, Err e).
Proof.
  intros Hside Htype Hbal.
  unfold place_order_body, validate_side, validate_order_type. cbv zeta.
  now rewrite Hside, Htype, !bind_ret, Hbal.
Qed.

(** C9: the balance check comes before the price check.  A LIMIT order with
    a price whose balance is insufficient is rejected with the
    insufficient-balance error after the account request alone, whatever its
    price deviation: a BUY when the free quote amount is less than
    [quantity * price], a SELL when the free base amount is less than the
    quantity.  And whenever [place_order] on a LIMIT order asks the exchange
    for the market price, which only the price check does, the balance check
    has passed. *)
Theorem balance_check_precedes_price_check (c : Client) (symbol side : string)
    (quantity p : float) (stop_price : option float) (time_in_force : string) :
  (forall balances : list Balance,
      get_account c = Ok balances ->
      PyStr.upper side = "BUY" ->
      PrimFloat.is_zero p = false ->
      let held := free_balance (quote_asset (PyStr.upper symbol)) balances in
      (held <? quantity * p)%float = true ->
      place_order c symbol side "LIMIT" quantity (Some p) stop_price time_in_force
      = ([GetAccount],
         Err (FailedToPlaceOrder
                (InsufficientBalance held (quote_asset (PyStr.upper symbol))
                   (quantity * p)%float (held / p)%float
                   (base_asset (PyStr.upper symbol))))))
  /\ (forall balances : list Balance,
         get_account c = Ok balances ->
         PyStr.upper side = "SELL" ->
         let held := free_balance (base_asset (PyStr.upper symbol)) balances in
         (held <? quantity)%float = true ->
         place_order c symbol side "LIMIT" quantity (Some p) stop_price
           time_in_force
         = ([GetAccount],
            Err (FailedToPlaceOrder
                   (InsufficientBalance held (base_asset (PyStr.upper symbol))
                      quantity held (base_asset (PyStr.upper symbol))))))
  /\ (existsb is_get_symbol_ticker
        (fst (place_order c symbol side "LIMIT" quantity (Some p) stop_price
                time_in_force)) = true ->
      outcome (check_balance c (PyStr.upper symbol) (PyStr.upper side) "LIMIT"
                 quantity (Some p)) = Ok tt).
Proof.
  split; [| split].
  - intros balances Hacc Hside Hzero held Hlt.
    unfold place_order.
    rewrite (place_order_balance_rejected c symbol side "LIMIT" quantity (Some p)
               stop_price time_in_force [GetAccount]
               (InsufficientBalance held (quote_asset (PyStr.upper symbol))
                  (quantity * p)%float (held / p)%float
                  (base_asset (PyStr.upper symbol)))).
    + reflexivity.
    + now rewrite Hside.
    + reflexivity.
    + change (PyStr.upper "LIMIT") with "LIMIT". rewrite Hside.
      rewrite (check_balance_buy_priced c (PyStr.upper symbol) "LIMIT" quantity p
                 balances Hacc eq_refl).
      unfold insufficient_quote. fold held. now rewrite Hlt, Hzero.
  - intros balances Hacc Hside held Hlt.
    unfold place_order.
    rewrite (place_order_balance_rejected c symbol side "LIMIT" quantity (Some p)
               stop_price time_in_force [GetAccount]
               (InsufficientBalance held (base_asset (PyStr.upper symbol))
                  quantity held (base_asset (PyStr.upper symbol)))).
    + reflexivity.
    + now rewrite Hside.
    + reflexivity.
    + change (PyStr.upper "LIMIT") with "LIMIT". rewrite Hside.
      rewrite (check_balance_sell c (PyStr.upper symbol) "SELL" "LIMIT" quantity
                 (Some p) balances Hacc eq_refl).
      cbv zeta. fold held. now rewrite Hlt.
  - rewrite trace_place_order.
    unfold place_order_body, validate_side. cbv zeta.
    change (PyStr.upper "LIMIT") with "LIMIT".
    destruct (str_in (PyStr.upper side) ["BUY"; "SELL"]);
      [| intros H; discriminate H].
    rewrite bind_ret.
    change (validate_order_type "LIMIT") with (@ret unit tt).
    rewrite bind_ret, trace_bind.
    pose proof (check_balance_asks_no_price c (PyStr.upper symbol)
                  (PyStr.upper side) "LIMIT" quantity (Some p) eq_refl) as Hno.
    destruct (outcome (check_balance c (PyStr.upper symbol) (PyStr.upper side)
                         "LIMIT" quantity (Some p))) as [[] | e].
    + reflexivity.
    + rewrite Hno. intros H; discriminate H.
Qed.

(** A LIMIT BUY of 1 BTC at 10000 with 100 USDT free, at the market price
    50000: the balance is insufficient and the price is 80% away from the
    market; the error is the insufficient balance, and the market price was
    not asked for.  The same for a SELL of 2 BTC with 1 BTC free. *)
Lemma balance_check_precedes_price_check_witness :
  (100 <? 1 * 10000)%float = true
  /\ (20 <? deviation 10000 50000)%float = true
  /\ place_order (sample_client 100 1 50000) "btcusdt" "buy" "LIMIT" 1
       (Some 10000%float) None "GTC"
     = ([GetAccount],
        Err (FailedToPlaceOrder
               (InsufficientBalance 100 "USDT" 10000 (100 / 10000) "BTC")))
  /\ place_order (sample_client 100 1 50000) "btcusdt" "sell" "LIMIT" 2
       (Some 10000%float) None "GTC"
     = ([GetAccount],
        Err (FailedToPlaceOrder (InsufficientBalance 1 "BTC" 2 1 "BTC")))
  /\ outcome (check_balance (sample_client 100 1 50000) "BTCUSDT" "SELL" "LIMIT"
                1 (Some 50000%float)) = Ok tt.
Proof.
  split; [reflexivity |]. split; [reflexivity |].
  split; [| split].
  - exact (proj1 (balance_check_precedes_price_check (sample_client 100 1 50000)
                    "btcusdt" "buy" 1 10000 None "GTC")
             _ eq_refl eq_refl eq_refl eq_refl).
  - exact (proj1 (proj2 (balance_check_precedes_price_check
                           (sample_client 100 1 50000) "btcusdt" "sell" 2 10000
                           None "GTC"))
             _ eq_refl eq_refl eq_refl).
  - exact (proj2 (proj2 (balance_check_precedes_price_check
                           (sample_client 100 1 50000) "btcusdt" "sell" 1 50000
                           None "GTC"))
             eq_refl).
Defined.

(** * Further properties of [place_order] *)

(** ** The requests of one call, in order *)









(** The fields every request built carries. *)
Lemma build_order_params_fields symbol side order_type quantity price stop_price
    tif order_params :
  outcome (build_order_params symbol side order_type quantity price stop_price tif)
  = Ok order_params ->
  order_params !! "symbol" = Some (VStr symbol)
  /\ order_params !! "side" = Some (VStr side)
  /\ order_params !! "type" = Some (VStr order_type)
  /\ order_params !! "quantity" = Some (VFloat quantity).
Proof.
  unfold build_order_params, base_params.
  destruct (String.eqb order_type "LIMIT"), price as [p |],
    (str_in order_type ["STOP"; "STOP_MARKET"; "TAKE_PROFIT"; "TAKE_PROFIT_MARKET"]),
    stop_price as [sp |];
    cbv [bind ret raise trace outcome fst snd app];
    intros H; inversion H; subst; clear H;
    repeat split;
    repeat (rewrite lookup_insert_ne by discriminate);
    apply lookup_insert_eq.
Qed.



(** ** What a result means *)

Lemma outcome_submit_ok c symbol order_params info :
  outcome (submit c symbol order_params) = Ok info ->
  exists order_id,
    create_order c order_params = Ok (order_response info)
    /\ order_response info !! "orderId" = Some order_id
    /\ get_order c (PyStr.upper symbol) order_id = Ok (order_details info).
Proof.
  unfold submit, request, item, get_order_details.
  destruct (create_order c order_params) as [response | e]; [| discriminate].
  destruct (response !! "orderId") as [order_id |] eqn:Hid.
  - cbv [bind ret raise trace outcome fst snd app]. rewrite Hid.
    destruct (get_order c (PyStr.upper symbol) order_id) as [details | e] eqn:Hget;
      [| discriminate].
    intros H. injection H as <-. exists order_id. simpl. auto.
  - cbv [bind ret raise trace outcome fst snd app]. rewrite Hid. discriminate.
Qed.

(** X2: when [place_order] returns, every check has passed and built the
    request, the exchange has accepted that request, and the details
    returned are the exchange's answer to the query of the order whose
    identifier is in the response, under the upper-cased symbol. *)
Theorem place_order_returns_the_order_placed (c : Client)
    (symbol side order_type : string) (quantity : float)
    (price stop_price : option float) (time_in_force : string) (info : OrderInfo) :
  snd (place_order c symbol side order_type quantity price stop_price
         time_in_force) = Ok info ->
  exists (order_params : gmap string value) (order_id : value),
    outcome (prepare c (PyStr.upper symbol) (PyStr.upper side)
               (PyStr.upper order_type) quantity price stop_price time_in_force)
    = Ok order_params
    /\ create_order c order_params = Ok (order_response info)
    /\ order_response info !! "orderId" = Some order_id
    /\ get_order c (PyStr.upper symbol) order_id = Ok (order_details info)
    /\ existsb is_create_order
         (fst (place_order c symbol side order_type quantity price stop_price
                 time_in_force)) = true.
Proof.
  intros H. rewrite result_place_order in H.
  rewrite trace_place_order. rewrite place_order_body_split in *.
  rewrite outcome_bind in H. rewrite trace_bind.
  destruct (outcome (prepare c (PyStr.upper symbol) (PyStr.upper side)
                       (PyStr.upper order_type) quantity price stop_price
                       time_in_force)) as [order_params | e]; [| discriminate].
  destruct (outcome (submit c (PyStr.upper symbol) order_params))
    as [info' | e] eqn:Hsub; [| discriminate].
  injection H as <-.
  destruct (outcome_submit_ok _ _ _ _ Hsub) as (order_id & Hc & Hid & Hget).
  rewrite upper_idempotent in Hget.
  exists order_params, order_id. repeat (split; [auto; fail |]).
  destruct (submit_requests_order c (PyStr.upper symbol) order_params) as [t Ht].
  rewrite Ht, existsb_app. simpl. apply orb_true_r.
Qed.

Lemma place_order_returns_the_order_placed_witness :
  exists (order_params : gmap string value) (order_id : value),
    outcome (prepare (sample_client 100 0 50000) (PyStr.upper "btcusdt")
               (PyStr.upper "buy") (PyStr.upper "market") 0.001 None None "GTC")
    = Ok order_params
    /\ create_order (sample_client 100 0 50000) order_params = Ok sample_response
    /\ sample_response !! "orderId" = Some order_id
    /\ get_order (sample_client 100 0 50000) (PyStr.upper "btcusdt") order_id
       = Ok sample_response
    /\ existsb is_create_order
         (fst (place_order (sample_client 100 0 50000) "btcusdt" "buy" "market"
                 0.001 None None "GTC")) = true.
Proof.
  exact (place_order_returns_the_order_placed (sample_client 100 0 50000)
           "btcusdt" "buy" "market" 0.001 None None "GTC"
           {| order_response := sample_response;
              order_details := sample_response |} eq_refl).
Defined.

(** X3: a failure of [place_order] does not mean that no order was sent.
    When the checks pass and the exchange accepts the order, but its
    response has no "orderId" or the query of the order fails, [place_order]
    fails although the order was submitted. *)
Theorem place_order_can_fail_after_submission (c : Client)
    (symbol side order_type : string) (quantity : float)
    (price stop_price : option float) (time_in_force : string)
    (order_params response : gmap string value) :
  outcome (prepare c (PyStr.upper symbol) (PyStr.upper side)
             (PyStr.upper order_type) quantity price stop_price time_in_force)
  = Ok order_params ->
  create_order c order_params = Ok response ->
  (response !! "orderId" = None
   \/ exists order_id e,
        response !! "orderId" = Some order_id
        /\ get_order c (PyStr.upper symbol) order_id = Err e) ->
  (exists f,
      snd (place_order c symbol side order_type quantity price stop_price
             time_in_force) = Err f)
  /\ existsb is_create_order
       (fst (place_order c symbol side order_type quantity price stop_price
               time_in_force)) = true.
Proof.
  intros Hprep Hcreate Hfail.
  rewrite result_place_order, trace_place_order, place_order_body_split.
  rewrite outcome_bind, trace_bind, Hprep.
  split.
  - unfold submit, request, item, get_order_details. rewrite Hcreate.
    cbv [bind ret raise trace outcome fst snd app].
    destruct Hfail as [Hid | (order_id & e & Hid & Hget)]; rewrite Hid.
    + eauto.
    + rewrite upper_idempotent, Hget. eauto.
  - destruct (submit_requests_order c (PyStr.upper symbol) order_params) as [t Ht].
    rewrite Ht, existsb_app. simpl. apply orb_true_r.
Qed.

Lemma place_order_can_fail_after_submission_witness :
  (exists f,
      snd (place_order forgetful_client "BTCUSDT" "SELL" "MARKET" 1 None None "GTC")
      = Err f)
  /\ existsb is_create_order
       (fst (place_order forgetful_client "BTCUSDT" "SELL" "MARKET" 1 None None
               "GTC")) = true.
Proof.
  apply (place_order_can_fail_after_submission forgetful_client "BTCUSDT" "SELL"
           "MARKET" 1 None None "GTC"
           (base_params "BTCUSDT" "SELL" "MARKET" 1) sample_response).
  - reflexivity.
  - reflexivity.
  - right. exists (VInt 1), (BinanceAPIException "Order does not exist." (-2013)).
    split; reflexivity.
Defined.

(** ** Orders without a price *)

Lemma stop_family_cases (order_type : string) :
  str_in order_type ["STOP"; "STOP_MARKET"; "TAKE_PROFIT"; "TAKE_PROFIT_MARKET"]
  = true ->
  order_type = "STOP" \/ order_type = "STOP_MARKET" \/ order_type = "TAKE_PROFIT"
  \/ order_type = "TAKE_PROFIT_MARKET".
Proof.
  unfold str_in. simpl. rewrite !orb_true_iff, !String.eqb_eq.
  intros [H | [H | [H | [H | H]]]]; auto. discriminate.
Qed.

Lemma build_with_stop_price symbol side order_type quantity price sp tif :
  str_in order_type ["STOP"; "STOP_MARKET"; "TAKE_PROFIT"; "TAKE_PROFIT_MARKET"]
  = true ->
  build_order_params symbol side order_type quantity price (Some sp) tif
  = ret (<["stopPrice" := VFloat sp]>
           (base_params symbol side order_type quantity)).
Proof.
  intros H.
  destruct (stop_family_cases order_type H) as [-> | [-> | [-> | ->]]];
    reflexivity.
Qed.

Lemma place_order_after_checks c symbol side order_type quantity price
    stop_price tif t order_params :
  str_in (PyStr.upper side) ["BUY"; "SELL"] = true ->
  str_in (PyStr.upper order_type) valid_order_types = true ->
  check_balance c (PyStr.upper symbol) (PyStr.upper side) (PyStr.upper order_type)
    quantity price = (t, Ok tt) ->
  check_limit_price c (PyStr.upper symbol) (PyStr.upper order_type) price
  = ret tt ->
  build_order_params (PyStr.upper symbol) (PyStr.upper side)
    (PyStr.upper order_type) quantity price stop_price tif = ret order_params ->
  exists t',
    trace (place_order_body c symbol side order_type quantity price stop_price tif)
    = (t ++ CreateOrder order_params :: t')%list.
Proof.
  intros Hside Htype Hbal Hlimit Hbuild.
  unfold place_order_body, validate_side, validate_order_type. cbv zeta.
  rewrite Hside, Htype, !bind_ret, Hbal, bind_ok, Hlimit, bind_ret, Hbuild,
    bind_ret.
  cbn [trace fst].
  destruct (submit_requests_order c (PyStr.upper symbol) order_params) as [t' Ht'].
  unfold submit in Ht'. rewrite Ht'. now exists t'.
Qed.

(** X4: what [place_order] does with an order that has no price, once the
    account is answered, depends on the side and the type.  A BUY of any
    type other than MARKET fails in the balance check with a [TypeError]
    (the product [quantity * None]), after the account request alone, and
    is not submitted.  A SELL LIMIT, when the balance suffices, fails in the
    builder with the [ValueError] "Price is required for LIMIT orders",
    after the account request alone, and is not submitted.  A SELL of one
    of the four stop types with a stop price, also of the stop-limit type
    STOP, when the balance suffices, is submitted right after the account
    request, with the stop price and without a price. *)
Theorem order_without_price (c : Client) (symbol side order_type : string)
    (quantity : float) (stop_price : option float) (time_in_force : string)
    (balances : list Balance) :
  get_account c = Ok balances ->
  (PyStr.upper side = "BUY" ->
   str_in (PyStr.upper order_type) valid_order_types = true ->
   String.eqb (PyStr.upper order_type) "MARKET" = false ->
   place_order c symbol side order_type quantity None stop_price time_in_force
   = ([GetAccount], Err (FailedToPlaceOrder TypeError)))
  /\ (PyStr.upper side = "SELL" ->
      PyStr.upper order_type = "LIMIT" ->
      (free_balance (base_asset (PyStr.upper symbol)) balances <? quantity)%float
      = false ->
      place_order c symbol side order_type quantity None stop_price time_in_force
      = ([GetAccount],
         Err (FailedToPlaceOrder
                (ValueError "Price is required for LIMIT orders"))))
  /\ (forall sp : float,
         PyStr.upper side = "SELL" ->
         str_in (PyStr.upper order_type)
           ["STOP"; "STOP_MARKET"; "TAKE_PROFIT"; "TAKE_PROFIT_MARKET"] = true ->
         (free_balance (base_asset (PyStr.upper symbol)) balances <? quantity)%float
         = false ->
         stop_price = Some sp ->
         let order_params :=
           <["stopPrice" := VFloat sp]>
             (base_params (PyStr.upper symbol) "SELL" (PyStr.upper order_type)
                quantity) in
         order_params !! "price" = None
         /\ exists t,
              fst (place_order c symbol side order_type quantity None stop_price
                     time_in_force)
              = GetAccount :: CreateOrder order_params :: t).
Proof.
  intros Hacc. split; [| split].
  - intros Hside Htype Hmarket. unfold place_order.
    rewrite (place_order_balance_rejected c symbol side order_type quantity None
               stop_price time_in_force [GetAccount] TypeError).
    + reflexivity.
    + now rewrite Hside.
    + exact Htype.
    + rewrite Hside. now apply check_balance_buy_unpriced with (balances := balances).
  - intros Hside Htype Hheld. unfold place_order, place_order_body. cbv zeta.
    rewrite Hside, Htype.
    change (validate_side "SELL") with (@ret unit tt).
    change (validate_order_type "LIMIT") with (@ret unit tt).
    rewrite !bind_ret.
    rewrite (check_balance_sell c (PyStr.upper symbol) "SELL" "LIMIT" quantity None
               balances Hacc eq_refl).
    cbv zeta. rewrite Hheld. reflexivity.
  - intros sp Hside Hstop Hheld -> order_params.
    split.
    { unfold order_params. rewrite lookup_insert_ne by discriminate.
      apply base_params_no_price. }
    rewrite trace_place_order.
    apply (place_order_after_checks c symbol side order_type quantity None
             (Some sp) time_in_force [GetAccount] order_params).
    + now rewrite Hside.
    + destruct (stop_family_cases _ Hstop) as [-> | [-> | [-> | ->]]];
        reflexivity.
    + rewrite Hside.
      rewrite (check_balance_sell c (PyStr.upper symbol) "SELL"
                 (PyStr.upper order_type) quantity None balances Hacc eq_refl).
      cbv zeta. now rewrite Hheld.
    + apply check_limit_price_skipped. now right.
    + rewrite Hside. unfold order_params.
      now apply build_with_stop_price.
Qed.

Lemma order_without_price_witness :
  place_order (sample_client 100 1 50000) "BTCUSDT" "buy" "stop_market" 0.001
    None (Some 45000%float) "GTC"
  = ([GetAccount], Err (FailedToPlaceOrder TypeError))
  /\ place_order (sample_client 100 1 50000) "BTCUSDT" "sell" "limit" 0.5
       None None "GTC"
     = ([GetAccount],
        Err (FailedToPlaceOrder (ValueError "Price is required for LIMIT orders")))
  /\ exists t,
       fst (place_order (sample_client 100 1 50000) "BTCUSDT" "sell" "stop" 0.5
              None (Some 45000%float) "GTC")
       = GetAccount
         :: CreateOrder (<["stopPrice" := VFloat 45000]>
                           (base_params "BTCUSDT" "SELL" "STOP" 0.5))
         :: t.
Proof.
  split; [| split].
  - exact (proj1 (order_without_price (sample_client 100 1 50000) "BTCUSDT" "buy"
                    "stop_market" 0.001 (Some 45000%float) "GTC" _ eq_refl)
             eq_refl eq_refl eq_refl).
  - exact (proj1 (proj2 (order_without_price (sample_client 100 1 50000) "BTCUSDT"
                           "sell" "limit" 0.5 None "GTC" _ eq_refl))
             eq_refl eq_refl eq_refl).
  - exact (proj2 (proj2 (proj2 (order_without_price (sample_client 100 1 50000)
                                  "BTCUSDT" "sell" "stop" 0.5
                                  (Some 45000%float) "GTC" _ eq_refl))
                    45000%float eq_refl eq_refl eq_refl eq_refl)).
Defined.

(** ** The fields of the request, by order type *)

(** X5: for the four stop types (STOP, STOP_MARKET, TAKE_PROFIT,
    TAKE_PROFIT_MARKET) the builder requires a stop price, and raises the
    [ValueError] "Stop price is required for <type> orders" without one;
    with one, the request is the four common fields and "stopPrice" only:
    a price supplied with the order, also for the stop-limit type STOP, is
    not sent, and neither is the time in force. *)
Theorem build_stop_order (symbol side order_type : string) (quantity : float)
    (price : option float) (time_in_force : string) :
  str_in order_type ["STOP"; "STOP_MARKET"; "TAKE_PROFIT"; "TAKE_PROFIT_MARKET"]
  = true ->
  build_order_params symbol side order_type quantity price None time_in_force
  = raise (ValueError (String.append "Stop price is required for "
                         (String.append order_type " orders")))
  /\ forall sp : float,
       build_order_params symbol side order_type quantity price (Some sp)
         time_in_force
       = ret (<["stopPrice" := VFloat sp]>
                (base_params symbol side order_type quantity))
       /\ (<["stopPrice" := VFloat sp]>
             (base_params symbol side order_type quantity)) !! "price" = None
       /\ (<["stopPrice" := VFloat sp]>
             (base_params symbol side order_type quantity)) !! "timeInForce"
          = None.
Proof.
  intros H.
  assert (build_order_params symbol side order_type quantity price None
            time_in_force
          = raise (ValueError (String.append "Stop price is required for "
                                 (String.append order_type " orders")))
          /\ forall sp : float,
               build_order_params symbol side order_type quantity price (Some sp)
                 time_in_force
               = ret (<["stopPrice" := VFloat sp]>
                        (base_params symbol side order_type quantity)))
    as [Hnone Hsome].
  { destruct (stop_family_cases order_type H) as [-> | [-> | [-> | ->]]];
      split; try intros sp; reflexivity. }
  split; [exact Hnone |].
  intros sp. split; [apply Hsome |].
  split.
  - rewrite lookup_insert_ne by discriminate. apply base_params_no_price.
  - rewrite lookup_insert_ne by discriminate. apply base_params_no_time_in_force.
Qed.

Lemma build_stop_order_witness :
  build_order_params "BTCUSDT" "SELL" "STOP" 1 (Some 48000%float) None "GTC"
  = raise (ValueError "Stop price is required for STOP orders")
  /\ forall sp : float,
       build_order_params "BTCUSDT" "SELL" "STOP" 1 (Some 48000%float) (Some sp)
         "GTC"
       = ret (<["stopPrice" := VFloat sp]> (base_params "BTCUSDT" "SELL" "STOP" 1))
       /\ (<["stopPrice" := VFloat sp]> (base_params "BTCUSDT" "SELL" "STOP" 1))
            !! "price" = None
       /\ (<["stopPrice" := VFloat sp]> (base_params "BTCUSDT" "SELL" "STOP" 1))
            !! "timeInForce" = None.
Proof.
  exact (build_stop_order "BTCUSDT" "SELL" "STOP" 1 (Some 48000%float) "GTC"
           eq_refl).
Defined.

(** X6: the request of a LIMIT order with a price is the four common fields
    with "price" and "timeInForce"; a stop price supplied with it is not
    sent. *)
Theorem build_limit_order_fields (symbol side : string) (quantity p : float)
    (stop_price : option float) (time_in_force : string) :
  exists order_params : gmap string value,
    build_order_params symbol side "LIMIT" quantity (Some p) stop_price
      time_in_force = ret order_params
    /\ order_params !! "price" = Some (VFloat p)
    /\ order_params !! "timeInForce" = Some (VStr time_in_force)
    /\ order_params !! "stopPrice" = None
    /\ order_params !! "symbol" = Some (VStr symbol)
    /\ order_params !! "side" = Some (VStr side)
    /\ order_params !! "type" = Some (VStr "LIMIT")
    /\ order_params !! "quantity" = Some (VFloat quantity).
Proof.
  eexists. split; [apply build_limit_order |].
  split; [rewrite lookup_insert_ne by discriminate; apply lookup_insert_eq |].
  split; [apply lookup_insert_eq |].
  split; [rewrite !lookup_insert_ne by discriminate;
          apply base_params_no_stop_price |].
  apply (build_order_params_fields symbol side "LIMIT" quantity (Some p)
           stop_price time_in_force).
  now rewrite build_limit_order.
Qed.

(** ** Failures of the exchange *)

(** X7: when the account request fails, a valid order stops there: nothing
    else is requested, and the caller gets the failure as the handlers wrap
    it, a [BinanceAPIException] with the exchange's message and code
    unchanged. *)
Theorem place_order_without_account (c : Client) (symbol side order_type : string)
    (quantity : float) (price stop_price : option float) (time_in_force : string)
    (e : client_error) :
  str_in (PyStr.upper side) ["BUY"; "SELL"] = true ->
  str_in (PyStr.upper order_type) valid_order_types = true ->
  get_account c = Err e ->
  place_order c symbol side order_type quantity price stop_price time_in_force
  = ([GetAccount], Err (handle (ClientError e)))
  /\ forall message code,
       e = BinanceAPIException message code ->
       snd (place_order c symbol side order_type quantity price stop_price
              time_in_force) = Err (BinanceApiError message code).
Proof.
  intros Hside Htype Hacc.
  assert (place_order c symbol side order_type quantity price stop_price
            time_in_force = ([GetAccount], Err (handle (ClientError e)))) as H.
  { unfold place_order.
    rewrite (place_order_balance_rejected c symbol side order_type quantity price
               stop_price time_in_force [GetAccount] (ClientError e) Hside Htype).
    - reflexivity.
    - now apply check_balance_no_account. }
  split; [exact H |].
  intros message code ->. now rewrite H.
Qed.

Lemma place_order_without_account_witness :
  place_order locked_out_client "BTCUSDT" "BUY" "MARKET" 0.001 None None "GTC"
  = ([GetAccount],
     Err (BinanceApiError "Invalid API-key, IP, or permissions for action." (-2015))).
Proof.
  exact (proj1 (place_order_without_account locked_out_client "BTCUSDT" "BUY"
                  "MARKET" 0.001 None None "GTC" _ eq_refl eq_refl eq_refl)).
Defined.

Lemma check_limit_price_at_zero c symbol p market_price :
  get_symbol_ticker c (PyStr.upper symbol) = Ok market_price ->
  PrimFloat.is_zero market_price = true ->
  check_limit_price c symbol "LIMIT" (Some p)
  = ([GetSymbolTicker (PyStr.upper symbol)], Err ZeroDivisionError).
Proof.
  intros Hticker Hzero.
  unfold check_limit_price, get_current_price, request, fdiv.
  change (String.eqb "LIMIT" "LIMIT") with true. cbv iota.
  now rewrite Hticker, bind_ok, Hzero.
Qed.

(** X8: a market price of zero makes the price check of a LIMIT order
    divide by zero: once the side is valid and the balance check has
    passed, [place_order] fails with [ZeroDivisionError] after the price
    request, and the order is not submitted. *)
Theorem limit_order_at_zero_market_price (c : Client) (symbol side : string)
    (quantity p : float) (stop_price : option float) (time_in_force : string)
    (market_price : float) (t : list call) :
  str_in (PyStr.upper side) ["BUY"; "SELL"] = true ->
  check_balance c (PyStr.upper symbol) (PyStr.upper side) "LIMIT" quantity (Some p)
  = (t, Ok tt) ->
  get_symbol_ticker c (PyStr.upper symbol) = Ok market_price ->
  PrimFloat.is_zero market_price = true ->
  place_order c symbol side "LIMIT" quantity (Some p) stop_price time_in_force
  = ((t ++ [GetSymbolTicker (PyStr.upper symbol)])%list,
     Err (FailedToPlaceOrder ZeroDivisionError)).
Proof.
  intros Hside Hbal Hticker Hzero.
  unfold place_order, place_order_body, validate_side. cbv zeta.
  change (PyStr.upper "LIMIT") with "LIMIT".
  rewrite Hside, bind_ret.
  change (validate_order_type "LIMIT") with (@ret unit tt).
  rewrite bind_ret, Hbal.
  rewrite (check_limit_price_at_zero c (PyStr.upper symbol) p market_price)
    by (rewrite ?upper_idempotent; assumption).
  now rewrite upper_idempotent.
Qed.

Lemma limit_order_at_zero_market_price_witness :
  place_order (sample_client 100 1 0) "BTCUSDT" "SELL" "LIMIT" 0.5
    (Some 50000%float) None "GTC"
  = ([GetAccount; GetSymbolTicker "BTCUSDT"],
     Err (FailedToPlaceOrder ZeroDivisionError)).
Proof.
  exact (limit_order_at_zero_market_price (sample_client 100 1 0) "BTCUSDT" "SELL"
           0.5 50000 None "GTC" 0 [GetAccount] eq_refl eq_refl eq_refl eq_refl).
Defined.

(** ** The balance looked up *)

(** X9: the balance of an asset is the [free] amount of the first entry of
    the account for that asset, whatever entries follow it; an asset with no
    entry has the balance zero, so that a SELL of an asset the account does
    not list is rejected, with zero held, as soon as zero is less than the
    quantity. *)
Theorem free_balance_first_entry (a : string) (before after : list Balance)
    (b : Balance) :
  Forall (fun x => asset x <> a) before ->
  (asset b = a -> free_balance a (before ++ b :: after) = free b)
  /\ free_balance a before = 0%float
  /\ forall (c : Client) (symbol order_type : string) (quantity : float)
            (price : option float),
       get_account c = Ok before ->
       base_asset symbol = a ->
       (0 <? quantity)%float = true ->
       check_balance c symbol "SELL" order_type quantity price
       = ([GetAccount], Err (InsufficientBalance 0 a quantity 0 a)).
Proof.
  intros Hbefore.
  assert (forall rest, free_balance a (before ++ rest) = free_balance a rest)
    as Hskip.
  { intros rest. induction Hbefore as [| x l Hx _ IH]; simpl; [reflexivity |].
    apply String.eqb_neq in Hx. now rewrite Hx. }
  assert (free_balance a before = 0%float) as Hzero.
  { rewrite <- (app_nil_r before). apply Hskip. }
  split; [| split].
  - intros Hb. rewrite Hskip. simpl. apply String.eqb_eq in Hb. now rewrite Hb.
  - exact Hzero.
  - intros c symbol order_type quantity price Hacc Hbase Hq.
    rewrite (check_balance_sell c symbol "SELL" order_type quantity price before
               Hacc eq_refl).
    cbv zeta. rewrite Hbase, Hzero, Hq. reflexivity.
Qed.

Lemma free_balance_first_entry_witness :
  free_balance "BTC"
    ([ {| asset := "USDT"; free := 100; locked := 0 |} ]
     ++ {| asset := "BTC"; free := 2; locked := 1 |}
        :: [ {| asset := "BTC"; free := 7; locked := 0 |} ]) = 2%float
  /\ check_balance (sample_client 100 1 50000) "ETHUSDT" "SELL" "MARKET" 0.5 None
     = ([GetAccount], Err (InsufficientBalance 0 "ETH" 0.5 0 "ETH")).
Proof.
  split.
  - apply (proj1 (free_balance_first_entry "BTC"
                    [ {| asset := "USDT"; free := 100; locked := 0 |} ]
                    [ {| asset := "BTC"; free := 7; locked := 0 |} ]
                    {| asset := "BTC"; free := 2; locked := 1 |}
                    ltac:(repeat constructor; discriminate))).
    reflexivity.
  - apply (proj2 (proj2 (free_balance_first_entry "ETH"
                           [ {| asset := "BTC"; free := 1; locked := 5 |};
                             {| asset := "USDT"; free := 100; locked := 1000 |} ]
                           [] {| asset := "ETH"; free := 0; locked := 0 |}
                           ltac:(repeat constructor; discriminate))));
      reflexivity.
Defined.

(** * The symbol resolver on every symbol *)

Lemma length_append_string (a b : string) :
  String.length (String.append a b) = (String.length a + String.length b)%nat.
Proof. induction a as [| c a IH]; simpl; [reflexivity | now rewrite IH]. Qed.

Lemma substring_append_left (a b : string) :
  String.substring 0 (String.length a) (String.append a b) = a.
Proof.
  induction a as [| c a IH]; simpl.
  - now destruct b.
  - now rewrite IH.
Qed.

Lemma substring_append_right (a b : string) :
  String.substring (String.length a) (String.length b) (String.append a b) = b.
Proof.
  induction a as [| c a IH]; simpl; [apply substring_all | exact IH].
Qed.

Lemma endswith_append (a suffix : string) :
  PyStr.endswith (String.append a suffix) suffix = true.
Proof.
  unfold PyStr.endswith. rewrite length_append_string.
  destruct (Nat.ltb_spec (String.length a + String.length suffix)
              (String.length suffix)) as [H | H]; [lia |].
  replace (String.length a + String.length suffix - String.length suffix)%nat
    with (String.length a) by lia.
  rewrite substring_append_right. apply String.eqb_refl.
Qed.

(** X10: the resolver undoes the naming of a USDT pair: for every base
    asset name, also the empty one, the symbol made of that name followed by
    "USDT" resolves to that base asset and to the quote asset "USDT". *)
Theorem resolve_usdt_pair (base : string) :
  base_asset (String.append base "USDT") = base
  /\ quote_asset (String.append base "USDT") = "USDT".
Proof.
  pose proof (endswith_append base "USDT") as Hends.
  destruct (resolve_usdt_symbol _ Hends) as (_ & Hquote & Hbase & _).
  split; [| exact Hquote].
  rewrite Hbase. unfold remove_last. rewrite length_append_string. simpl.
  replace (String.length base + 4 - 4)%nat with (String.length base) by lia.
  apply substring_append_left.
Qed.

(** X11: what the resolver computes for every symbol.  When the symbol ends
    in "USDT": the quote asset "USDT", the base asset the symbol without its
    last four characters, and the two together are the symbol.  Otherwise:
    the quote asset "USDT", and the base asset the symbol without its last
    three characters, except for a symbol of two characters, which loses its
    last character only. *)
Theorem resolve_every_symbol (symbol : string) :
  quote_asset symbol = "USDT"
  /\ if PyStr.endswith symbol "USDT" then
       base_asset symbol = remove_last 4 symbol
       /\ String.append (base_asset symbol) (quote_asset symbol) = symbol
     else
       base_asset symbol
       = if Nat.eqb (String.length symbol) 2 then remove_last 1 symbol
         else remove_last 3 symbol.
Proof.
  destruct (PyStr.endswith symbol "USDT") eqn:Hends.
  - destruct (resolve_usdt_symbol _ Hends) as (_ & Hquote & Hbase & Hcat). auto.
  - split; [unfold quote_asset; now rewrite Hends |].
    destruct (Nat.eqb_spec (String.length symbol) 2) as [Hlen | Hlen].
    + unfold base_asset, PyStr.slice_to, PyStr.bound, PyStr.len, remove_last.
      rewrite Hends, Hlen. reflexivity.
    + now apply resolve_other_symbol.
Qed.

(** * Holdings: [get_position_info] *)

Lemma prefix_append (sub post : string) :
  String.prefix sub (String.append sub post) = true.
Proof. apply String.prefix_correct. apply substring_append_left. Qed.

Lemma prefix_split (sub s : string) :
  String.prefix sub s = true -> exists post, s = String.append sub post.
Proof.
  revert s. induction sub as [| a sub IH]; intros s H.
  - exists s. reflexivity.
  - destruct s as [| b s]; simpl in H; [discriminate |].
    destruct (ascii_dec a b) as [-> | _]; [| discriminate].
    destruct (IH s H) as [post ->]. exists post. reflexivity.
Qed.

(** [str_contains] is Python's [in] on strings: the first string occurs
    somewhere in the second. *)
Lemma str_contains_occurs (sub s : string) :
  str_contains sub s = true
  <-> exists pre post, s = String.append pre (String.append sub post).
Proof.
  split.
  - induction s as [| c s IH]; cbn [str_contains]; rewrite orb_true_iff.
    + intros [H | H]; [| discriminate].
      destruct (prefix_split _ _ H) as [post Hs]. exists "", post. exact Hs.
    + intros [H | H].
      * destruct (prefix_split _ _ H) as [post Hs]. exists "", post. exact Hs.
      * destruct (IH H) as (pre & post & ->). exists (String c pre), post.
        reflexivity.
  - intros (pre & post & ->). induction pre as [| c pre IH].
    + change (String.append "" (String.append sub post))
        with (String.append sub post).
      destruct (String.append sub post) eqn:E; cbn [str_contains];
        rewrite <- E, prefix_append; reflexivity.
    + rewrite append_cons. cbn [str_contains]. rewrite IH. apply orb_true_r.
Qed.

Lemma in_active_positions (symbol : option string) (balances : list Balance)
    (h : Holding) :
  In h (active_positions symbol balances)
  <-> exists b,
        In b balances
        /\ (0 <? free b + locked b)%float = true
        /\ position_matches symbol (asset b) = true
        /\ h = {| holding_asset := asset b; holding_free := free b;
                  holding_locked := locked b;
                  holding_total := (free b + locked b)%float |}.
Proof.
  induction balances as [| b rest IH]; simpl.
  - split; [intros [] | intros (b & [] & _)].
  - destruct (0 <? free b + locked b)%float eqn:Htotal;
      [destruct (position_matches symbol (asset b)) eqn:Hmatch |].
    + simpl. rewrite IH. split.
      * intros [<- | (b' & Hin & H)]; [exists b; auto | exists b'; tauto].
      * intros (b' & [<- | Hin] & Ht & Hm & ->); [now left |].
        right. exists b'. auto.
    + rewrite IH. split.
      * intros (b' & Hin & H). exists b'. tauto.
      * intros (b' & [<- | Hin] & Ht & Hm & ->); [congruence |].
        exists b'. auto.
    + rewrite IH. split.
      * intros (b' & Hin & H). exists b'. tauto.
      * intros (b' & [<- | Hin] & Ht & Hm & ->); [congruence |].
        exists b'. auto.
Qed.

(** X12: what [get_position_info] returns.  It makes one request, for the
    account; when that fails, so does it.  Otherwise the holdings are
    exactly the balances of the account whose total, [free + locked], is
    greater than zero and whose asset passes the symbol test: each holding
    carries the asset, the free and the locked amount of such a balance and
    that total, and every such balance is there. *)
Theorem get_position_info_holdings (c : Client) (symbol : option string) :
  trace (get_position_info c symbol) = [GetAccount]
  /\ (forall e, get_account c = Err e ->
                outcome (get_position_info c symbol) = Err (ClientError e))
  /\ (forall balances, get_account c = Ok balances ->
        exists holdings,
          outcome (get_position_info c symbol) = Ok holdings
          /\ forall h,
               In h holdings
               <-> exists b,
                     In b balances
                     /\ (0 <? free b + locked b)%float = true
                     /\ position_matches symbol (asset b) = true
                     /\ h = {| holding_asset := asset b; holding_free := free b;
                               holding_locked := locked b;
                               holding_total := (free b + locked b)%float |}).
Proof.
  unfold get_position_info, request.
  split; [| split].
  - now destruct (get_account c).
  - intros e ->. reflexivity.
  - intros balances ->. exists (active_positions symbol balances).
    split; [reflexivity |]. intros h. apply in_active_positions.
Qed.

Lemma get_position_info_holdings_witness :
  exists holdings,
    outcome (get_position_info (sample_client 100 0 50000) None) = Ok holdings
    /\ forall h,
         In h holdings
         <-> exists b,
               In b [ {| asset := "BTC"; free := 0; locked := 5 |};
                      {| asset := "USDT"; free := 100; locked := 1000 |} ]
               /\ (0 <? free b + locked b)%float = true
               /\ position_matches None (asset b) = true
               /\ h = {| holding_asset := asset b; holding_free := free b;
                         holding_locked := locked b;
                         holding_total := (free b + locked b)%float |}.
Proof.
  exact (proj2 (proj2 (get_position_info_holdings (sample_client 100 0 50000) None))
           _ eq_refl).
Defined.

(** X13: the symbol test of [get_position_info] is a test of occurrence:
    an asset passes exactly when its name occurs somewhere in the
    upper-cased symbol (the second test of line 319, [asset + 'USDT' ==
    symbol], adds nothing to the first).  So the holdings for "BTCUSDT"
    include, besides BTC and USDT, every other asset held whose name is a
    part of that text; and the symbol is matched without regard to case. *)
Theorem position_matches_occurrence (symbol a : string) :
  (position_matches (Some symbol) a = true
   <-> exists pre post,
         PyStr.upper symbol = String.append pre (String.append a post))
  /\ position_matches (Some (PyStr.upper symbol)) a
     = position_matches (Some symbol) a
  /\ forall balances,
       active_positions (Some (PyStr.upper symbol)) balances
       = active_positions (Some symbol) balances.
Proof.
  assert (forall x, position_matches (Some (PyStr.upper symbol)) x
                    = position_matches (Some symbol) x) as Hcase.
  { intros x. unfold position_matches. now rewrite upper_idempotent. }
  split; [| split].
  - unfold position_matches. rewrite orb_true_iff, str_contains_occurs. split.
    + intros [H | H]; [exact H |].
      apply String.eqb_eq in H. exists "", "USDT". now rewrite <- H.
    + intros H. now left.
  - apply Hcase.
  - intros balances.
    induction balances as [| b rest IH]; cbn [active_positions]; [reflexivity |].
    now rewrite Hcase, IH.
Qed.

Example holdings_of_btcusdt :
  map holding_asset
    (active_positions (Some "btcusdt")
       [ {| asset := "BTC"; free := 1; locked := 0 |};
         {| asset := "ETH"; free := 2; locked := 0 |};
         {| asset := "USD"; free := 3; locked := 0 |};
         {| asset := "T"; free := 4; locked := 0 |};
         {| asset := "USDT"; free := 0; locked := 0 |} ])
  = ["BTC"; "USD"; "T"].
Proof. reflexivity. Qed.

(** * Trading rules: [get_symbol_info] *)

Lemma find_symbol_some (symbols : list SymbolInfo) (s : string) (i : SymbolInfo) :
  find_symbol symbols s = Some i ->
  info_symbol i = s
  /\ exists before after,
       symbols = (before ++ i :: after)%list
       /\ Forall (fun x => info_symbol x <> s) before.
Proof.
  induction symbols as [| x rest IH]; simpl; [discriminate |].
  destruct (String.eqb (info_symbol x) s) eqn:Hx.
  - intros H. injection H as <-. apply String.eqb_eq in Hx.
    split; [exact Hx |]. exists [], rest. split; [reflexivity | constructor].
  - intros H. destruct (IH H) as (Hi & before & after & -> & Hbefore).
    split; [exact Hi |]. exists (x :: before), after.
    split; [reflexivity |]. constructor; [| exact Hbefore].
    now apply String.eqb_neq.
Qed.

Lemma find_symbol_none (symbols : list SymbolInfo) (s : string) :
  find_symbol symbols s = None <-> Forall (fun x => info_symbol x <> s) symbols.
Proof.
  induction symbols as [| x rest IH]; simpl.
  - split; [constructor | reflexivity].
  - destruct (String.eqb (info_symbol x) s) eqn:Hx.
    + apply String.eqb_eq in Hx. split; [discriminate |].
      intros H. inversion H. contradiction.
    + apply String.eqb_neq in Hx. rewrite IH. split.
      * intros H. now constructor.
      * intros H. now inversion H.
Qed.

(** X14: [get_symbol_info] on the list the exchange publishes.  When it
    returns an entry, that is the first entry of the list whose symbol is the
    upper-cased argument.  It raises the [ValueError] "Symbol <symbol> not
    found", with the symbol as it was given, exactly when no entry has that
    symbol.  Two spellings of a symbol that differ in case only find the same
    entry. *)
Theorem get_symbol_info_finds_first (symbols : list SymbolInfo) (symbol : string) :
  (forall i, get_symbol_info (Ok symbols) symbol = Ok i ->
             info_symbol i = PyStr.upper symbol
             /\ exists before after,
                  symbols = (before ++ i :: after)%list
                  /\ Forall (fun x => info_symbol x <> PyStr.upper symbol) before)
  /\ (get_symbol_info (Ok symbols) symbol
      = Err (ValueError (String.append "Symbol "
                           (String.append symbol " not found")))
      <-> Forall (fun x => info_symbol x <> PyStr.upper symbol) symbols)
  /\ (forall other i,
         PyStr.upper other = PyStr.upper symbol ->
         get_symbol_info (Ok symbols) other = Ok i
         <-> get_symbol_info (Ok symbols) symbol = Ok i).
Proof.
  unfold get_symbol_info. split; [| split].
  - intros i.
    destruct (find_symbol symbols (PyStr.upper symbol)) as [x |] eqn:Hfind;
      [| discriminate].
    intros H. injection H as <-. now apply find_symbol_some.
  - rewrite <- find_symbol_none.
    destruct (find_symbol symbols (PyStr.upper symbol)) as [x |];
      split; try discriminate; reflexivity.
  - intros other i ->.
    destruct (find_symbol symbols (PyStr.upper symbol)) as [x |];
      split; intros H; try discriminate H; exact H.
Qed.

(** * The constructor *)

(** X15: what constructing a [BasicBot] does.  The credentials come from the
    environment alone: the arguments [api_key] and [api_secret] change
    nothing.  When the key or the secret is missing or empty in the
    environment, the constructor raises its [ValueError] before anything
    else is done.  Otherwise the first step is the creation of a client with
    the environment's credentials, always in testnet mode, whatever the
    [testnet] argument.  When the constructor returns, the server time and
    the account have been requested, in this order, and both were answered;
    the bot holds the environment's credentials, and the testnet URL exactly
    when [testnet] was set. *)
Theorem init_uses_the_environment (env : gmap string string) (pf : Platform)
    (api_key api_secret : option string) (testnet : bool) :
  (forall api_key' api_secret',
      init env pf api_key' api_secret' testnet
      = init env pf api_key api_secret testnet)
  /\ (truthy_str (env !! "BINANCE_API_KEY")
      && truthy_str (env !! "BINANCE_API_SECRET") = false ->
      init env pf api_key api_secret testnet
      = ([], Err (ValueError
                    "API credentials not found. Please check your .env file.")))
  /\ (forall k s,
         env !! "BINANCE_API_KEY" = Some k -> k <> "" ->
         env !! "BINANCE_API_SECRET" = Some s -> s <> "" ->
         (exists t,
             fst (init env pf api_key api_secret testnet) = NewClient k s true :: t)
         /\ forall bot,
              snd (init env pf api_key api_secret testnet) = Ok bot ->
              bot_api_key bot = k /\ bot_api_secret bot = s
              /\ bot_api_url bot
                 = (if testnet then Some "https://testnet.binance.vision/api"
                    else None)
              /\ (exists time, server_time pf = Ok time)
              /\ account_access pf = Ok tt
              /\ fst (init env pf api_key api_secret testnet)
                 = (NewClient k s true
                    :: (if testnet
                        then [SetApiUrl "https://testnet.binance.vision/api"]
                        else [])
                    ++ [GetServerTime; TestGetAccount])%list).
Proof.
  split; [reflexivity |]. split.
  - intros H. unfold init.
    apply andb_false_iff in H.
    destruct H as [-> | ->]; simpl; [reflexivity |].
    now rewrite orb_true_r.
  - intros k s Hk Hkne Hs Hsne.
    apply String.eqb_neq in Hkne, Hsne.
    unfold init, getenv, truthy_str, initialize_client, test_connection.
    rewrite Hk, Hs, Hkne, Hsne. cbn [negb orb].
    destruct (new_client pf k s true) as [[] | e].
    + destruct testnet, (server_time pf) as [time | e],
        (account_access pf) as [[] | e'];
        (split; [eexists; reflexivity |]);
        intros bot Hbot; try discriminate Hbot;
        injection Hbot as <-; cbn; repeat split; eauto.
    + split; [eexists; reflexivity |]. intros bot Hbot. discriminate Hbot.
Qed.

Lemma init_uses_the_environment_witness :
  init ∅ sample_platform (Some "key") (Some "secret") true
  = ([], Err (ValueError "API credentials not found. Please check your .env file."))
  /\ (exists t,
         fst (init sample_env sample_platform (Some "other") None false)
         = NewClient "key" "secret" true :: t).
Proof.
  split.
  - exact (proj1 (proj2 (init_uses_the_environment ∅ sample_platform (Some "key")
                           (Some "secret") true)) eq_refl).
  - exact (proj1 (proj2 (proj2 (init_uses_the_environment sample_env
                                  sample_platform (Some "other") None false))
                    "key" "secret" eq_refl ltac:(discriminate) eq_refl
                    ltac:(discriminate))).
Defined.

Example init_sample :
  init sample_env sample_platform None None true
  = ([NewClient "key" "secret" true;
      SetApiUrl "https://testnet.binance.vision/api";
      GetServerTime; TestGetAccount],
     Ok {| bot_api_key := "key"; bot_api_secret := "secret";
           bot_debug_mode := true;
           bot_api_url := Some "https://testnet.binance.vision/api" |}).
Proof. vm_compute. reflexivity. Qed.

(** * The single-command mode *)

Lemma truthy_str_some (o : option string) :
  truthy_str o = true -> exists s, o = Some s /\ s <> "".
Proof.
  destruct o as [s |]; simpl; [| discriminate].
  intros H. exists s. split; [reflexivity |].
  apply String.eqb_neq. now destruct (String.eqb s "").
Qed.

Lemma truthy_float_some (o : option float) :
  truthy_float o = true -> exists x, o = Some x /\ PrimFloat.is_zero x = false.
Proof.
  destruct o as [x |]; simpl; [| discriminate].
  intros H. exists x. split; [reflexivity |].
  now destruct (PrimFloat.is_zero x).
Qed.

(** X16: what [main] has checked when it places an order.  It reaches
    [run_single_command] only with arguments, not in interactive mode, with
    a symbol, a side and a type that are present and not empty and a
    quantity that is present and not zero; with a price that is present and
    not zero when the type is LIMIT or STOP; and with a stop price that is
    present and not zero when the type is STOP_MARKET or STOP.  The call
    made is then [place_order] on exactly these arguments, with the time in
    force GTC. *)
Theorem main_places_checked_orders (argc : nat) (args : Args) :
  main argc args = RunSingleCommand ->
  argc <> 1%nat /\ arg_interactive args = false
  /\ exists symbol side order_type quantity,
       arg_symbol args = Some symbol /\ symbol <> ""
       /\ arg_side args = Some side /\ side <> ""
       /\ arg_type args = Some order_type /\ order_type <> ""
       /\ arg_quantity args = Some quantity
       /\ PrimFloat.is_zero quantity = false
       /\ (str_in order_type ["LIMIT"; "STOP"] = true ->
           exists p, arg_price args = Some p /\ PrimFloat.is_zero p = false)
       /\ (str_in order_type ["STOP_MARKET"; "STOP"] = true ->
           exists sp,
             arg_stop_price args = Some sp /\ PrimFloat.is_zero sp = false)
       /\ forall c : Client,
            run_single_command c args
            = Some (place_order c symbol side order_type quantity
                      (arg_price args) (arg_stop_price args) "GTC").
Proof.
  unfold main.
  destruct (Nat.eqb_spec argc 1) as [| Hargc]; [discriminate |].
  destruct (arg_interactive args); [discriminate |]. cbn [orb].
  destruct (truthy_str (arg_symbol args)) eqn:Hsym; [| discriminate].
  destruct (truthy_str (arg_side args)) eqn:Hside; [| discriminate].
  destruct (truthy_str (arg_type args)) eqn:Htype; [| discriminate].
  destruct (truthy_float (arg_quantity args)) eqn:Hqty; [| discriminate].
  cbn [andb negb].
  destruct (truthy_str_some _ Hsym) as (symbol & Es & Hs).
  destruct (truthy_str_some _ Hside) as (side & Esd & Hsd).
  destruct (truthy_str_some _ Htype) as (order_type & Et & Ht).
  destruct (truthy_float_some _ Hqty) as (quantity & Eq & Hq).
  rewrite Et. cbn [opt_in].
  intros H. split; [exact Hargc |]. split; [reflexivity |].
  exists symbol, side, order_type, quantity.
  repeat (split; [assumption || reflexivity |]).
  split; [| split].
  - intros Hin. rewrite Hin in H. cbn [andb] in H.
    destruct (truthy_float (arg_price args)) eqn:Hp; [| discriminate].
    now apply truthy_float_some.
  - intros Hin.
    destruct (str_in order_type ["LIMIT"; "STOP"]
              && negb (truthy_float (arg_price args))); [discriminate |].
    rewrite Hin in H. cbn [andb] in H.
    destruct (truthy_float (arg_stop_price args)) eqn:Hsp; [| discriminate].
    now apply truthy_float_some.
  - intros c. unfold run_single_command. now rewrite Es, Esd, Et, Eq.
Qed.

Lemma main_places_checked_orders_witness :
  3%nat <> 1%nat /\ false = false
  /\ exists symbol side order_type quantity,
       Some "BTCUSDT" = Some symbol /\ symbol <> ""
       /\ Some "BUY" = Some side /\ side <> ""
       /\ Some "LIMIT" = Some order_type /\ order_type <> ""
       /\ Some 0.001%float = Some quantity
       /\ PrimFloat.is_zero quantity = false
       /\ (str_in order_type ["LIMIT"; "STOP"] = true ->
           exists p, Some 45000%float = Some p /\ PrimFloat.is_zero p = false)
       /\ (str_in order_type ["STOP_MARKET"; "STOP"] = true ->
           exists sp, @None float = Some sp /\ PrimFloat.is_zero sp = false)
       /\ forall c : Client,
            run_single_command c
              {| arg_symbol := Some "BTCUSDT"; arg_side := Some "BUY";
                 arg_type := Some "LIMIT"; arg_quantity := Some 0.001%float;
                 arg_price := Some 45000%float; arg_stop_price := None;
                 arg_interactive := false |}
            = Some (place_order c symbol side order_type quantity
                      (Some 45000%float) None "GTC").
Proof.
  exact (main_places_checked_orders 3
           {| arg_symbol := Some "BTCUSDT"; arg_side := Some "BUY";
              arg_type := Some "LIMIT"; arg_quantity := Some 0.001%float;
              arg_price := Some 45000%float; arg_stop_price := None;
              arg_interactive := false |} eq_refl).
Defined.

(** X17: the single-command mode and [place_order] do not agree on which
    orders need a price.  [main] asks for a price for LIMIT and STOP only;
    a BUY STOP_MARKET order given with a stop price and no price passes its
    checks, and [place_order], whose balance check multiplies the quantity
    by the price for every BUY that is not a MARKET order, then fails with a
    [TypeError] after the account request: the order is not submitted. *)
Theorem cli_buy_stop_market_needs_price (argc : nat) (args : Args) (c : Client)
    (balances : list Balance) :
  main argc args = RunSingleCommand ->
  arg_side args = Some "BUY" ->
  arg_type args = Some "STOP_MARKET" ->
  arg_price args = None ->
  get_account c = Ok balances ->
  run_single_command c args
  = Some ([GetAccount], Err (FailedToPlaceOrder TypeError)).
Proof.
  intros Hmain Hside Htype Hprice Hacc.
  unfold main in Hmain. unfold run_single_command.
  rewrite Hside, Htype, Hprice in *.
  destruct (arg_symbol args) as [symbol |];
    [| now destruct (Nat.eqb argc 1 || arg_interactive args)].
  destruct (arg_quantity args) as [quantity |];
    [| destruct (Nat.eqb argc 1 || arg_interactive args); cbn in Hmain;
       [discriminate | rewrite andb_false_r in Hmain; discriminate]].
  f_equal. unfold place_order.
  rewrite (place_order_balance_rejected c symbol "BUY" "STOP_MARKET" quantity None
             (arg_stop_price args) "GTC" [GetAccount] TypeError).
  - reflexivity.
  - reflexivity.
  - reflexivity.
  - now apply check_balance_buy_unpriced with (balances := balances).
Qed.

Lemma cli_buy_stop_market_needs_price_witness :
  run_single_command (sample_client 100000 0 50000)
    {| arg_symbol := Some "BTCUSDT"; arg_side := Some "BUY";
       arg_type := Some "STOP_MARKET"; arg_quantity := Some 0.001%float;
       arg_price := None; arg_stop_price := Some 55000%float;
       arg_interactive := false |}
  = Some ([GetAccount], Err (FailedToPlaceOrder TypeError)).
Proof.
  exact (cli_buy_stop_market_needs_price 9
           {| arg_symbol := Some "BTCUSDT"; arg_side := Some "BUY";
              arg_type := Some "STOP_MARKET"; arg_quantity := Some 0.001%float;
              arg_price := None; arg_stop_price := Some 55000%float;
              arg_interactive := false |}
           (sample_client 100000 0 50000) _ eq_refl eq_refl eq_refl eq_refl
           eq_refl).
Defined.
